(** * OpenClaw agent: routing, bounded history and orchestration

    A shallow embedding of [src/models/router.py], [src/agent/core.py] and
    the part of [src/config/settings.py] they read, followed by the
    properties of the routing / conversation engine.

    Conventions of the embedding.
    - Python [str] values are [string]s whose characters are the code points
      U+0000..U+00FF (one [ascii] each); on that range [lower], [strip],
      [split] and the [re] classes below follow CPython's tables.
    - Python [int] is [Z]; [len] results are injected with [Z.of_nat].
    - A [dict] with string keys and string values is a [gmap string string];
      [self.conversations] is a [gmap] from user ids to message lists.
    - A coroutine is run to completion in isolation: [await] is sequencing.
    - The provider adapters, the clock and the notification handlers are
      the outside world: transformers of an abstract [World].  Records
      handed to [loguru] by the router and the agent are collected, in
      emission order, in an explicit list. *)

From Stdlib Require Import ZArith List String Ascii Bool Lia DecimalString.
From stdpp Require Import base option list gmap strings fin_maps.

Local Open Scope string_scope.
Local Open Scope list_scope.
Local Open Scope Z_scope.

(** ** Python strings *)

Module PyStr.

Definition code (c : ascii) : N := N_of_ascii c.

Definition between (lo hi : N) (c : ascii) : bool :=
  ((lo <=? code c) && (code c <=? hi))%N.

(** [str.isspace] on one character: TAB..CR, FS..US, SPACE, NEL, NBSP. *)
Definition isspace (c : ascii) : bool :=
  between 9 13 c || between 28 32 c || (code c =? 133)%N || (code c =? 160)%N.

(** Characters changed by [str.lower]: A-Z and the Latin-1 capitals
    U+00C0..U+00DE without the multiplication sign U+00D7. *)
Definition isupper (c : ascii) : bool :=
  between 65 90 c || (between 192 222 c && negb (code c =? 215)%N).

Definition lower_char (c : ascii) : ascii :=
  if isupper c then ascii_of_N (code c + 32) else c.

Fixpoint lower (s : string) : string :=
  match s with
  | EmptyString => EmptyString
  | String c r => String (lower_char c) (lower r)
  end.

(** [\w] of [re] on [str] patterns: alphanumeric characters and [_]. *)
Definition isword (c : ascii) : bool :=
  between 48 57 c || between 65 90 c || (code c =? 95)%N || between 97 122 c
  || (code c =? 170)%N || between 178 179 c || (code c =? 181)%N
  || between 185 186 c || between 188 190 c
  || between 192 214 c || between 216 246 c || between 248 255 c.

Fixpoint lstrip (s : string) : string :=
  match s with
  | EmptyString => EmptyString
  | String c r => if isspace c then lstrip r else s
  end.

(** [rstrip] keeps a character when it is not a space or when something
    is kept after it. *)
Fixpoint rstrip (s : string) : string :=
  match s with
  | EmptyString => EmptyString
  | String c r =>
      match rstrip r with
      | EmptyString => if isspace c then EmptyString else String c EmptyString
      | kept => String c kept
      end
  end.

Definition strip (s : string) : string := rstrip (lstrip s).

(** [s.split()]: the maximal runs of non-space characters. [word] is the
    run being read. *)
Fixpoint split_aux (s word : string) : list string :=
  match s with
  | EmptyString => if String.eqb word "" then [] else [word]
  | String c r =>
      if isspace c
      then (if String.eqb word "" then split_aux r "" else word :: split_aux r "")
      else split_aux r (word +:+ String c "")
  end.

Definition split (s : string) : list string := split_aux s "".

(** [s.split(sep)] for a one-character separator: empty pieces are kept. *)
Fixpoint split_on_aux (sep : ascii) (s piece : string) : list string :=
  match s with
  | EmptyString => [piece]
  | String c r =>
      if Ascii.eqb c sep
      then piece :: split_on_aux sep r ""
      else split_on_aux sep r (piece +:+ String c "")
  end.

Definition split_on (sep : ascii) (s : string) : list string :=
  split_on_aux sep s "".

Definition startswith (s p : string) : bool := String.prefix p s.

(** [needle in hay] *)
Fixpoint contains (needle hay : string) : bool :=
  String.prefix needle hay ||
  match hay with
  | EmptyString => false
  | String _ r => contains needle r
  end.

(** [sep.join(parts)] *)
Definition join (sep : string) (parts : list string) : string :=
  String.concat sep parts.

(** [s[:n]] for [n >= 0] *)
Definition take (n : nat) (s : string) : string := String.substring 0 n s.

(** [str(n)] for an [int] *)
Definition of_int (n : Z) : string := NilZero.string_of_int (Z.to_int n).

End PyStr.

(** ** Python list slices *)

Module PyList.
Section Slices.
Context {A : Type}.

(** An index of a slice, brought into [0 .. len]: negative indices count
    from the end, and both ends saturate. *)
Definition clamp (len i : Z) : nat :=
  Z.to_nat (Z.min len (if i <? 0 then Z.max 0 (len + i) else i)).

(** [l[i:]] *)
Definition slice_from (i : Z) (l : list A) : list A :=
  drop (clamp (Z.of_nat (length l)) i) l.

(** [l[:j]] *)
Definition slice_to (j : Z) (l : list A) : list A :=
  take (clamp (Z.of_nat (length l)) j) l.
End Slices.
End PyList.

(** ** The fragment of [re] used by the router

    The five patterns of [_calculate_complexity] are sequences of literal
    characters, [\b] and [.*]; [re.search] is asked only whether a match
    exists. *)

Module Re.

Inductive atom : Type :=
| Chr (c : ascii)       (* a literal character *)
| WordBoundary          (* \b *)
| AnyStar.              (* .* without DOTALL: any run without a newline *)

Definition pattern := list atom.

Fixpoint lit (s : string) : pattern :=
  match s with
  | EmptyString => []
  | String c r => Chr c :: lit r
  end.

Definition newline : ascii := ascii_of_N 10.

Definition word_before (prev : option ascii) : bool :=
  match prev with Some c => PyStr.isword c | None => false end.

Definition word_after (rest : string) : bool :=
  match rest with String c _ => PyStr.isword c | EmptyString => false end.

(** [\b] holds between a word character and a non-word character, the
    outside of the string counting as non-word. *)
Definition at_boundary (prev : option ascii) (rest : string) : bool :=
  xorb (word_before prev) (word_after rest).

(** Does [p] match a prefix of [s], [prev] being the character before? *)
Fixpoint match_here (p : pattern) : option ascii -> string -> bool :=
  match p with
  | [] => fun _ _ => true
  | Chr c :: q => fun _ s =>
      match s with
      | String d r => Ascii.eqb c d && match_here q (Some d) r
      | EmptyString => false
      end
  | WordBoundary :: q => fun prev s => at_boundary prev s && match_here q prev s
  | AnyStar :: q =>
      fix star (prev : option ascii) (s : string) {struct s} : bool :=
        match_here q prev s ||
        match s with
        | String d r => negb (Ascii.eqb d newline) && star (Some d) r
        | EmptyString => false
        end
  end.

Fixpoint search_from (p : pattern) (prev : option ascii) (s : string) : bool :=
  match_here p prev s ||
  match s with
  | String d r => search_from p (Some d) r
  | EmptyString => false
  end.

(** [re.search(p, s)] is not [None] *)
Definition search (p : pattern) (s : string) : bool := search_from p None s.

End Re.

(** ** src/config/settings.py *)

Module Config.

(** The fields of [Settings] that the router and the agent read *)
Record Settings : Type := {
  ollama_host : string;
  ollama_model : string;
  gemini_api_key : option string;
  gemini_model : string;
  complexity_threshold : Z;
  gemini_trigger_keywords : string;
  max_history_length : Z;
}.

Definition defaults : Settings := {|
  ollama_host := "http://localhost:11434";
  ollama_model := "llama3.2";
  gemini_api_key := None;
  gemini_model := "gemini-1.5-pro";
  complexity_threshold := 500;
  gemini_trigger_keywords := "analyze|generate code|complex|explain in detail|research";
  max_history_length := 20;
|}.

Definition gemini_keywords_list (self : Settings) : list string :=
  map (fun k => PyStr.lower (PyStr.strip k))
      (PyStr.split_on "|" (gemini_trigger_keywords self)).

End Config.

(** ** Values exchanged with the outside world *)

(** A history entry or a context entry: a [dict] from keys to strings. *)
Abbreviation Message := (gmap string string).

(** What a call that may raise gives back. [Raised] stands for an
    [Exception], the class the [except] clauses of the engine catch, kept as
    the text [str(e)], the only thing the code reads from it. *)
Inductive Outcome (A : Type) : Type :=
| Returned (a : A)
| Raised (e : string).
Arguments Returned {A} a.
Arguments Raised {A} e.

(** The [dict] returned by [generate] and [process_message]; the keys that
    only some branches set are options. *)
Record Response : Type := {
  text : string;
  model : string;
  model_version : option string;
  success : bool;
  fallback : option bool;
  error : option string;
}.

Inductive Level : Type := DEBUG | INFO | ERROR.

(** The process environment: the settings read at import time and the
    effectful collaborators of the engine. *)
Class Outside : Type := {
  settings : Config.Settings;
  World : Type;
  (** [OllamaClient.generate] and [GeminiClient.generate] *)
  ollama_generate : string -> option (list Message) -> World -> Outcome string * World;
  gemini_generate : string -> option (list Message) -> World -> Outcome string * World;
  (** [datetime.now().isoformat()] *)
  now_isoformat : World -> string * World;
}.

(** ** Effects: a state monad over the world and the emitted log records *)

Record Env `{Outside} : Type := {
  world : World;
  logs : list (Level * string);
}.

Definition M `{Outside} (A : Type) : Type := Env -> A * Env.

Definition ret `{Outside} {A} (a : A) : M A := fun e => (a, e).

Definition bind `{Outside} {A B} (m : M A) (k : A -> M B) : M B :=
  fun e => let (a, e') := m e in k a e'.

Notation "'let*' x := m 'in' k" := (bind m (fun x => k))
  (at level 10, x pattern, m at level 100, k at level 200).

(** [logger.<level>(msg)] *)
Definition logger `{Outside} (lvl : Level) (msg : string) : M unit :=
  fun e => (tt, {| world := world e; logs := logs e ++ [(lvl, msg)] |}).

(** The environment after some records were emitted *)
Definition logged `{Outside} (e : Env) (records : list (Level * string)) : Env :=
  {| world := world e; logs := logs e ++ records |}.

(** A call into the outside world *)
Definition outside `{Outside} {A} (f : World -> A * World) : M A :=
  fun e => let (a, w) := f (world e) in (a, {| world := w; logs := logs e |}).

(** A [for] loop that updates one local variable *)
Fixpoint for_fold `{Outside} {A B} (body : B -> A -> M B) (l : list A) (acc : B) : M B :=
  match l with
  | [] => ret acc
  | x :: r => let* acc' := body acc x in for_fold body r acc'
  end.

(** A [for] loop run for its effects *)
Fixpoint for_each `{Outside} {A} (body : A -> M unit) (l : list A) : M unit :=
  match l with
  | [] => ret tt
  | x :: r => let* _ := body x in for_each body r
  end.

(** ** src/models/router.py *)

Module Router.

(** The two adapter objects. Their [generate] methods are
    [ollama_generate] and [gemini_generate] of the environment. *)
Inductive OllamaClient : Type := OllamaClient_obj.
Inductive GeminiClient : Type := GeminiClient_obj.

Record ModelRouter : Type := {
  ollama : option OllamaClient;
  gemini : option GeminiClient;
  trigger_keywords : list string;
  complexity_threshold : Z;
}.

(** Truth value of an object reference and of an optional string *)
Definition truthy {A} (o : option A) : bool :=
  match o with Some _ => true | None => false end.

Definition truthy_str (o : option string) : bool :=
  match o with Some (String _ _) => true | _ => false end.

(** [force_model == name] *)
Definition is_str (o : option string) (name : string) : bool :=
  match o with Some s => String.eqb s name | None => false end.

Definition complex_patterns : list Re.pattern := [
  (* \bwhy\b.*\? *)
  Re.WordBoundary :: Re.lit "why" ++ [Re.WordBoundary; Re.AnyStar; Re.Chr "?"];
  (* \bhow\b.*\bwork\b *)
  Re.WordBoundary :: Re.lit "how" ++ [Re.WordBoundary; Re.AnyStar; Re.WordBoundary]
    ++ Re.lit "work" ++ [Re.WordBoundary];
  (* \bexplain\b *)
  Re.WordBoundary :: Re.lit "explain" ++ [Re.WordBoundary];
  (* \bcompare\b *)
  Re.WordBoundary :: Re.lit "compare" ++ [Re.WordBoundary];
  (* \bdifference\b.*\bbetween\b *)
  Re.WordBoundary :: Re.lit "difference" ++ [Re.WordBoundary; Re.AnyStar; Re.WordBoundary]
    ++ Re.lit "between" ++ [Re.WordBoundary]
].

(** [sum(...)] over integers *)
Definition sum (l : list Z) : Z := fold_left Z.add l 0.

(** What calling [.generate] on [None] raises *)
Definition none_has_no_generate : string :=
  "'NoneType' object has no attribute 'generate'".

Section Methods.
Context `{Outside}.

Definition __init__ : M ModelRouter :=
  let self := {|
    ollama := Some OllamaClient_obj;
    gemini := if truthy_str (Config.gemini_api_key settings)
              then Some GeminiClient_obj else None;
    trigger_keywords := Config.gemini_keywords_list settings;
    complexity_threshold := Config.complexity_threshold settings;
  |} in
  let* _ := logger INFO "Model Router initialized" in
  let* _ := logger INFO ("  - Ollama: " +:+ Config.ollama_model settings
                         +:+ " @ " +:+ Config.ollama_host settings) in
  let* _ := logger INFO ("  - Gemini: " +:+
              (if truthy (gemini self) then "Available" else "Not configured")) in
  ret self.

Definition _calculate_complexity (self : ModelRouter) (message : string)
    (context : option (list Message)) : M Z :=
  let score := 0 in
  (* Base score from message length *)
  let score := score + Z.of_nat (length (PyStr.split message)) in
  (* Check for trigger keywords *)
  let message_lower := PyStr.lower message in
  let* score :=
    for_fold (fun score keyword =>
        if PyStr.contains keyword message_lower
        then let* _ := logger DEBUG ("Trigger keyword found: '" +:+ keyword +:+ "'") in
             ret (score + 200)
        else ret score)
      (trigger_keywords self) score in
  (* Check for code blocks or technical content *)
  let score :=
    if PyStr.contains "```" message || PyStr.contains "def " message
       || PyStr.contains "function" message
    then score + 150 else score in
  (* Check for complex question indicators *)
  let score :=
    fold_left (fun score pattern =>
        if Re.search pattern message_lower then score + 100 else score)
      complex_patterns score in
  (* Context length contribution *)
  let score :=
    match context with
    | Some ((_ :: _) as context) =>
        let total_context_tokens :=
          sum (map (fun msg : Message =>
                 Z.of_nat (length (PyStr.split (default EmptyString (msg !! "content")))))
               context) in
        score + total_context_tokens / 10
    | _ => score
    end in
  ret score.

Definition _should_use_gemini (self : ModelRouter) (message : string)
    (context : option (list Message)) : M bool :=
  if negb (truthy (gemini self)) then ret false
  else
    let* complexity := _calculate_complexity self message context in
    let should_use := complexity_threshold self <=? complexity in
    let* _ := logger DEBUG ("Complexity score: " +:+ PyStr.of_int complexity
                +:+ ", threshold: " +:+ PyStr.of_int (complexity_threshold self)) in
    let* _ := logger DEBUG ("Using " +:+ (if should_use then "Gemini" else "Ollama")) in
    ret should_use.

(** [await self.ollama.generate(message, context)] *)
Definition call_ollama (self : ModelRouter) (message : string)
    (context : option (list Message)) : M (Outcome string) :=
  match ollama self with
  | Some _ => outside (ollama_generate message context)
  | None => ret (Raised none_has_no_generate)
  end.

(** [await self.gemini.generate(message, context)] *)
Definition call_gemini (self : ModelRouter) (message : string)
    (context : option (list Message)) : M (Outcome string) :=
  match gemini self with
  | Some _ => outside (gemini_generate message context)
  | None => ret (Raised none_has_no_generate)
  end.

(** The first statement of [generate] (the [if]/[elif]/[else] that sets
    [use_gemini]): which model to use *)
Definition choose_model (self : ModelRouter) (message : string)
    (context : option (list Message)) (force_model : option string) : M bool :=
  if is_str force_model "gemini" && truthy (gemini self) then ret true
  else if is_str force_model "ollama" then ret false
  else _should_use_gemini self message context.

Definition generate (self : ModelRouter) (message : string)
    (context : option (list Message)) (force_model : option string) : M Response :=
  (* Determine which model to use *)
  let* use_gemini := choose_model self message context force_model in
  let model_name := if use_gemini then "gemini" else "ollama" in
  let* attempt :=
    if use_gemini then call_gemini self message context
    else call_ollama self message context in
  match attempt with
  | Returned response =>
      ret {| text := response;
             model := model_name;
             model_version := Some (if use_gemini then Config.gemini_model settings
                                    else Config.ollama_model settings);
             success := true; fallback := None; error := None |}
  | Raised e =>
      let* _ := logger ERROR ("Error with " +:+ model_name +:+ ": " +:+ e) in
      let failed : M Response :=
        ret {| text := "I'm sorry, I encountered an error processing your request.";
               model := model_name;
               model_version := None;
               success := false; fallback := None; error := Some e |} in
      (* Fallback to other model *)
      if use_gemini && truthy (ollama self) then
        let* _ := logger INFO "Falling back to Ollama" in
        let* retry := call_ollama self message context in
        match retry with
        | Returned response =>
            ret {| text := response;
                   model := "ollama";
                   model_version := Some (Config.ollama_model settings);
                   success := true; fallback := Some true; error := None |}
        | Raised fallback_error =>
            let* _ := logger ERROR ("Fallback also failed: " +:+ fallback_error) in
            failed
        end
      else failed
  end.

End Methods.
End Router.

(** ** src/agent/core.py *)

Module Core.

Definition system_response (t : string) : Response :=
  {| text := t; model := "system"; model_version := None;
     success := true; fallback := None; error := None |}.

(** The [dict] literal of [_add_to_history] *)
Definition new_message (role content timestamp : string) : Message :=
  <["role" := role]> (<["content" := content]> (<["timestamp" := timestamp]> ∅)).

Definition nl : string := String (ascii_of_N 10) EmptyString.

Section Agent.
Context `{Outside}.

(** A callback registered with [on_message]: it is awaited with
    [(user_id, message, response)], acts on the world, and returns or
    raises. A handler is taken to read the response it is passed, not to
    mutate that [dict] or the agent. *)
Definition Handler : Type :=
  string -> string -> Response -> World -> Outcome unit * World.

Record Agent : Type := {
  router : Router.ModelRouter;
  conversations : gmap string (list Message);  (* user_id -> message history *)
  max_history : Z;
  _message_handlers : list Handler;
}.

(** Assignment to [self.conversations[...]] and [del], as a new record *)
Definition with_conversations (self : Agent) (c : gmap string (list Message)) : Agent :=
  {| router := router self; conversations := c;
     max_history := max_history self;
     _message_handlers := _message_handlers self |}.

Definition __init__ : M Agent :=
  let* r := Router.__init__ in
  let self := {| router := r; conversations := ∅;
                 max_history := Config.max_history_length settings;
                 _message_handlers := [] |} in
  let* _ := logger INFO "OpenClaw Agent initialized" in
  ret self.

(** Get or create conversation history for a user. *)
Definition _get_conversation (self : Agent) (user_id : string) : list Message * Agent :=
  match conversations self !! user_id with
  | Some history => (history, self)
  | None => ([], with_conversations self (<[user_id := []]> (conversations self)))
  end.

(** Add a message to conversation history. [history] is the list object
    stored under [user_id]: [append] updates the store in place, the
    trimming statement rebinds the key to a fresh list. No other
    reference to the stored list outlives a call. *)
Definition _add_to_history (self : Agent) (user_id role content : string) : M Agent :=
  let (history, self) := _get_conversation self user_id in
  let* timestamp := outside now_isoformat in
  let history := history ++ [new_message role content timestamp] in
  let self := with_conversations self (<[user_id := history]> (conversations self)) in
  (* Trim history if too long *)
  if max_history self <? Z.of_nat (length history)
  then ret (with_conversations self
              (<[user_id := PyList.slice_from (- max_history self) history]>
                 (conversations self)))
  else ret self.

(** Clear conversation history for a user. *)
Definition clear_history (self : Agent) (user_id : string) : M Agent :=
  match conversations self !! user_id with
  | Some _ =>
      let self := with_conversations self (delete user_id (conversations self)) in
      let* _ := logger INFO ("Cleared history for user: " +:+ user_id) in
      ret self
  | None => ret self
  end.

(** Register a message handler callback. *)
Definition on_message (self : Agent) (handler : Handler) : Agent :=
  {| router := router self; conversations := conversations self;
     max_history := max_history self;
     _message_handlers := _message_handlers self ++ [handler] |}.

(** Handle /status command. The pictographs of this text lie outside
    the Latin-1 range; the literals hold their UTF-8 bytes, and the text
    is only returned, never inspected. *)
Definition _handle_status_command (self : Agent) : M Response :=
  let ollama_status :=
    if Router.truthy (Router.ollama (router self))
    then "✅ Available" else "❌ Not configured" in
  let gemini_status :=
    if Router.truthy (Router.gemini (router self))
    then "✅ Available" else "❌ Not configured" in
  let status_text :=
    "**OpenClaw Status**" +:+ nl +:+ nl
    +:+ "🤖 **Models**" +:+ nl
    +:+ "- Ollama (" +:+ Config.ollama_model settings +:+ "): " +:+ ollama_status +:+ nl
    +:+ "- Gemini (" +:+ Config.gemini_model settings +:+ "): " +:+ gemini_status +:+ nl +:+ nl
    +:+ "⚙️ **Configuration**" +:+ nl
    +:+ "- Complexity Threshold: "
    +:+ PyStr.of_int (Config.complexity_threshold settings) +:+ nl
    +:+ "- Max History: " +:+ PyStr.of_int (Config.max_history_length settings) +:+ nl
    +:+ "- Active Conversations: "
    +:+ PyStr.of_int (Z.of_nat (size (conversations self))) in
  ret (system_response status_text).

(** Handle /model [ollama|gemini] command to force a specific model. *)
Definition _handle_model_command (self : Agent) (message user_id : string)
    : M (Response * Agent) :=
  let parts := PyStr.split (PyStr.strip message) in
  if Z.of_nat (length parts) <? 2
  then ret (system_response "Usage: /model [ollama|gemini] <message>", self)
  else
    (* parts[1]: in range here *)
    let model := PyStr.lower (default EmptyString (parts !! 1%nat)) in
    if negb (String.eqb model "ollama" || String.eqb model "gemini")
    then ret (system_response "Invalid model. Use 'ollama' or 'gemini'.", self)
    else
      (* Extract the actual message after /model <model> *)
      let actual_message :=
        if 2 <? Z.of_nat (length parts)
        then PyStr.join " " (PyList.slice_from 2 parts) else EmptyString in
      if String.eqb actual_message EmptyString
      then ret (system_response ("Model set to " +:+ model +:+ ". Now send your message."),
                self)
      else
        (* Process with forced model *)
        let* self := _add_to_history self user_id "user" actual_message in
        let (history, self) := _get_conversation self user_id in
        let context := PyList.slice_to (-1) history in
        let* response :=
          Router.generate (router self) actual_message (Some context) (Some model) in
        let* self :=
          if success response
          then _add_to_history self user_id "assistant" (text response)
          else ret self in
        ret (response, self).

(** The notification loop of [process_message] *)
Definition notify_handlers (self : Agent) (user_id message : string)
    (response : Response) : M unit :=
  for_each (fun handler : Handler =>
      let* outcome := outside (handler user_id message response) in
      match outcome with
      | Returned _ => ret tt
      | Raised e => logger ERROR ("Message handler error: " +:+ e)
      end)
    (_message_handlers self).

Definition process_message (self : Agent) (message user_id : string)
    (metadata : option (gmap string string)) : M (Response * Agent) :=
  let* _ := logger INFO ("Processing message from " +:+ user_id +:+ ": "
                         +:+ PyStr.take 50 message +:+ "...") in
  (* Check for special commands *)
  if String.eqb (PyStr.lower (PyStr.strip message)) "/clear" then
    let* self := clear_history self user_id in
    ret (system_response "Conversation history cleared.", self)
  else if String.eqb (PyStr.lower (PyStr.strip message)) "/status" then
    let* response := _handle_status_command self in
    ret (response, self)
  else if PyStr.startswith (PyStr.lower (PyStr.strip message)) "/model " then
    _handle_model_command self message user_id
  else
    (* Add message to history *)
    let* self := _add_to_history self user_id "user" message in
    (* Get conversation context (exclude current message) *)
    let (history, self) := _get_conversation self user_id in
    let context := PyList.slice_to (-1) history in
    (* Generate response *)
    let* response := Router.generate (router self) message (Some context) None in
    (* Add response to history *)
    let* self :=
      if success response
      then _add_to_history self user_id "assistant" (text response)
      else ret self in
    (* Notify handlers *)
    let* _ := notify_handlers self user_id message response in
    ret (response, self).

End Agent.
End Core.

(** ** A scripted outside world

    A world that is the trace of what was asked of it, with adapters that
    answer from a script. It serves to run the engine on concrete inputs. *)

Module Scripted.

Inductive Event : Type :=
| CallOllama (message : string) (context : option (list Message))
| CallGemini (message : string) (context : option (list Message))
| ReadClock
| Notified (handler user_id message : string) (response : Response).

(** Every adapter call is recorded and answered by [ollama_reply] or
    [gemini_reply]; the clock always reads [midnight]. *)
Definition midnight : string := "2024-01-01T00:00:00".

Definition outside_world (s : Config.Settings)
    (ollama_reply gemini_reply : Outcome string) : Outside := {|
  settings := s;
  World := list Event;
  ollama_generate message context w := (ollama_reply, w ++ [CallOllama message context]);
  gemini_generate message context w := (gemini_reply, w ++ [CallGemini message context]);
  now_isoformat w := (midnight, w ++ [ReadClock]);
|}.

(** Four worlds under the default settings *)
Definition all_up : Outside :=
  outside_world Config.defaults (Returned "local answer") (Returned "cloud answer").
Definition cloud_down : Outside :=
  outside_world Config.defaults (Returned "local answer") (Raised "quota exceeded").
Definition local_down : Outside :=
  outside_world Config.defaults (Raised "connection refused") (Returned "cloud answer").
Definition both_down : Outside :=
  outside_world Config.defaults (Raised "connection refused") (Raised "quota exceeded").

(** A handler that records its call and then returns or raises *)
Definition recording_handler (name : string) (outcome : Outcome unit)
    (user_id message : string) (response : Response) (w : list Event)
    : Outcome unit * list Event :=
  (outcome, w ++ [Notified name user_id message response]).

Definition both_adapters (keywords : list string) (threshold : Z) : Router.ModelRouter := {|
  Router.ollama := Some Router.OllamaClient_obj;
  Router.gemini := Some Router.GeminiClient_obj;
  Router.trigger_keywords := keywords;
  Router.complexity_threshold := threshold;
|}.

Definition local_only (keywords : list string) (threshold : Z) : Router.ModelRouter := {|
  Router.ollama := Some Router.OllamaClient_obj;
  Router.gemini := None;
  Router.trigger_keywords := keywords;
  Router.complexity_threshold := threshold;
|}.

Definition start `{Outside} (w : World) : Env := {| world := w; logs := [] |}.

(** An agent with an empty store *)
Definition agent `{Outside} (r : Router.ModelRouter) (bound : Z)
    (handlers : list Core.Handler) : Core.Agent :=
  {| Core.router := r; Core.conversations := ∅;
     Core.max_history := bound; Core._message_handlers := handlers |}.

(** Two handlers, the first of which raises, and an agent that has them *)
Definition two_handlers : list (@Core.Handler all_up) :=
  [recording_handler "first" (Raised "boom"); recording_handler "second" (Returned tt)].

Definition watched : @Core.Agent all_up :=
  @agent all_up (both_adapters [] 500) 20 two_handlers.

(** A handler of that name was awaited for that exchange *)
Definition notified (name user_id message : string) (trace : list Event) : Prop :=
  exists response, In (Notified name user_id message response) trace.

(** The role and content of each entry of a history *)
Definition summary (history : list Message) : list (option string * option string) :=
  map (fun msg : Message => (msg !! "role", msg !! "content")) history.

End Scripted.

(** ** The specification's vocabulary *)

Module Spec.

Inductive Backend : Type := local | cloud.

(** The [force] argument of the specification, read off [force_model] *)
Definition force_of (force_model : option string) : option Backend :=
  if Router.is_str force_model "gemini" then Some cloud
  else if Router.is_str force_model "ollama" then Some local
  else None.

(** The decision policy, in the words of the specification *)
Definition unforced (cloud_configured : bool) (score threshold : Z) : Backend :=
  if cloud_configured && (threshold <=? score) then cloud else local.

Definition policy (cloud_configured : bool) (force : option Backend)
    (score threshold : Z) : Backend :=
  match force with
  | Some cloud =>
      if cloud_configured then cloud else unforced cloud_configured score threshold
  | Some local => local
  | None => unforced cloud_configured score threshold
  end.

Definition is_cloud (b : Backend) : bool :=
  match b with cloud => true | local => false end.

Definition backend_name (b : Backend) : string :=
  match b with cloud => "gemini" | local => "ollama" end.

(** The five terms of the complexity score *)
Definition count {A} (p : A -> bool) (l : list A) : Z :=
  Z.of_nat (length (List.filter p l)).

Definition word_count (s : string) : Z := Z.of_nat (length (PyStr.split s)).


Definition has_code (message : string) : bool :=
  PyStr.contains "```" message || PyStr.contains "def " message
  || PyStr.contains "function" message.

Definition pattern_matches (message : string) (p : Re.pattern) : bool :=
  Re.search p (PyStr.lower message).

Definition content_of (msg : Message) : string :=
  default EmptyString (msg !! "content").

Fixpoint context_word_count (context : list Message) : Z :=
  match context with
  | [] => 0
  | msg :: rest => word_count (content_of msg) + context_word_count rest
  end.


End Spec.

(** ** Pure readings of the router

    The value and the log records of the scoring and of the choice, as
    functions of the arguments alone. *)

Module Reading.

(** The value [_calculate_complexity] returns for a router *)
Definition score (self : Router.ModelRouter) (message : string)
    (context : option (list Message)) : Z :=
  Spec.word_count message
  + 200 * Spec.count (fun keyword => PyStr.contains keyword (PyStr.lower message))
            (Router.trigger_keywords self)
  + (if Spec.has_code message then 150 else 0)
  + 100 * Spec.count (Spec.pattern_matches message) Router.complex_patterns
  + Spec.context_word_count (default [] context) / 10.

(** One debug record per keyword found, in the order of the list *)
Definition keyword_records (self : Router.ModelRouter) (message : string)
    : list (Level * string) :=
  map (fun keyword => (DEBUG, "Trigger keyword found: '" +:+ keyword +:+ "'"))
      (List.filter (fun keyword => PyStr.contains keyword (PyStr.lower message))
                   (Router.trigger_keywords self)).

(** The backend chosen by the first statement of [generate] *)
Definition chosen (self : Router.ModelRouter) (message : string)
    (context : option (list Message)) (force_model : option string) : Spec.Backend :=
  Spec.policy (Router.truthy (Router.gemini self)) (Spec.force_of force_model)
              (score self message context) (Router.complexity_threshold self).

(** The records emitted while choosing *)
Definition choice_records (self : Router.ModelRouter) (message : string)
    (context : option (list Message)) (force_model : option string)
    : list (Level * string) :=
  if Router.is_str force_model "gemini" && Router.truthy (Router.gemini self) then []
  else if Router.is_str force_model "ollama" then []
  else if negb (Router.truthy (Router.gemini self)) then []
  else keyword_records self message
       ++ [(DEBUG, "Complexity score: " +:+ PyStr.of_int (score self message context)
                   +:+ ", threshold: " +:+ PyStr.of_int (Router.complexity_threshold self));
           (DEBUG, "Using " +:+
                   (if Router.complexity_threshold self <=? score self message context
                    then "Gemini" else "Ollama"))].

(** The two responses [generate] builds without a fallback *)
Definition answered `{Outside} (b : Spec.Backend) (response : string) : Response :=
  {| text := response;
     model := Spec.backend_name b;
     model_version := Some (match b with
                            | Spec.cloud => Config.gemini_model settings
                            | Spec.local => Config.ollama_model settings
                            end);
     success := true; fallback := None; error := None |}.

Definition failed (b : Spec.Backend) (e : string) : Response :=
  {| text := "I'm sorry, I encountered an error processing your request.";
     model := Spec.backend_name b;
     model_version := None;
     success := false; fallback := None; error := Some e |}.

(** The response after a successful fallback *)
Definition fell_back `{Outside} (response : string) : Response :=
  {| text := response;
     model := "ollama";
     model_version := Some (Config.ollama_model settings);
     success := true; fallback := Some true; error := None |}.

(** The history stored for a user, empty when there is none: what
    [_get_conversation] returns *)
Definition history_of `{Outside} (self : Core.Agent) (user_id : string) : list Message :=
  default [] (Core.conversations self !! user_id).

(** The trimming statement of [_add_to_history] *)
Definition trimmed (max_history : Z) (history : list Message) : list Message :=
  if max_history <? Z.of_nat (length history)
  then PyList.slice_from (- max_history) history
  else history.

(** The agent after [_add_to_history] read the clock as [timestamp] *)
Definition appended `{Outside} (self : Core.Agent) (user_id role content timestamp : string)
    : Core.Agent :=
  Core.with_conversations self
    (<[user_id := trimmed (Core.max_history self)
                    (history_of self user_id ++ [Core.new_message role content timestamp])]>
       (Core.conversations self)).

(** The last [n] elements of a list, in their order *)
Definition last_n {A} (n : nat) (l : list A) : list A := drop (length l - n) l.

(** A sequence of history-append operations, each [(user_id, role, content)] *)
Fixpoint appends `{Outside} (self : Core.Agent) (ops : list (string * string * string))
    : M Core.Agent :=
  match ops with
  | [] => ret self
  | (user_id, role, content) :: rest =>
      let* self := Core._add_to_history self user_id role content in
      appends self rest
  end.

(** The entries those operations create for one user, each with the clock
    reading of its operation *)
Fixpoint entries_for `{Outside} (user_id : string) (ops : list (string * string * string))
    (w : World) : list Message :=
  match ops with
  | [] => []
  | (u, role, content) :: rest =>
      let (timestamp, w') := now_isoformat w in
      (if String.eqb u user_id then [Core.new_message role content timestamp] else [])
      ++ entries_for user_id rest w'
  end.

(** The three command tests of [process_message] *)
Definition is_command (message : string) : bool :=
  let m := PyStr.lower (PyStr.strip message) in
  String.eqb m "/clear" || String.eqb m "/status" || PyStr.startswith m "/model ".

(** The first record of every [process_message] call *)
Definition processing_record (user_id message : string) : Level * string :=
  (INFO, "Processing message from " +:+ user_id +:+ ": "
         +:+ PyStr.take 50 message +:+ "...").

(** The agent with another list of handlers *)
Definition with_handlers `{Outside} (self : Core.Agent) (handlers : list Core.Handler)
    : Core.Agent :=
  {| Core.router := Core.router self;
     Core.conversations := Core.conversations self;
     Core.max_history := Core.max_history self;
     Core._message_handlers := handlers |}.

(** The world after each handler of the list, in turn, was awaited with
    [(user_id, message, response)], whatever each one did *)
Definition hook_world `{Outside} (handlers : list Core.Handler) (user_id message : string)
    (response : Response) (w : World) : World :=
  fold_left (fun w (handler : Core.Handler) => snd (handler user_id message response w))
            handlers w.

(** One error record per handler that raised, in the order of the calls *)
Fixpoint hook_records `{Outside} (handlers : list Core.Handler) (user_id message : string)
    (response : Response) (w : World) : list (Level * string) :=
  match handlers with
  | [] => []
  | handler :: rest =>
      let (outcome, w') := handler user_id message response w in
      match outcome with
      | Returned _ => []
      | Raised e => [(ERROR, "Message handler error: " +:+ e)]
      end ++ hook_records rest user_id message response w'
  end.

End Reading.

(** ** Scenarios of the specification and of the test suite *)

Module Scenario.

(** Ten user messages, [Message 0] to [Message 9], for one user *)
Definition ten_messages : list (string * string * string) :=
  map (fun i => ("alice", "user", "Message " +:+ PyStr.of_int i))
      [0; 1; 2; 3; 4; 5; 6; 7; 8; 9].

(** An agent holding five entries for one user *)
Definition five_entries : @Core.Agent Scripted.all_up :=
  fst (@Reading.appends Scripted.all_up
         (@Scripted.agent Scripted.all_up (Scripted.both_adapters [] 500) 20 [])
         [("alice", "user", "one"); ("alice", "assistant", "two");
          ("alice", "user", "three"); ("alice", "assistant", "four");
          ("alice", "user", "five")]
         (@Scripted.start Scripted.all_up [])).

End Scenario.

(** ** src/config/settings.py: the allowed numbers

    [allowed_numbers_list] reads the one field [whatsapp_allowed_numbers];
    it is given here as a function of that field. *)

Module ConfigLists.

(** Parse allowed WhatsApp numbers into a list (pipe-separated). *)
Definition allowed_numbers_list (whatsapp_allowed_numbers : string) : list string :=
  if String.eqb whatsapp_allowed_numbers EmptyString then []
  else map PyStr.strip (PyStr.split_on "|" whatsapp_allowed_numbers).

(** [sep not in s] for a one-character separator *)
Definition free_of (sep : ascii) (s : string) : bool :=
  negb (PyStr.contains (String sep EmptyString) s).

End ConfigLists.

(** ** The lazy group search of [generate_with_thinking]

    [re.search(open + "(.*?)" + close, s, re.DOTALL)] for two literal
    tags: the match starts at the first [open]; its group runs to the first
    [close] after it; without such a [close] there is no match at all,
    since a later start would need one as well. *)

Module Tagged.

(** [s[len(p):]] when [s.startswith(p)] *)
Fixpoint strip_prefix (p s : string) : option string :=
  match p with
  | EmptyString => Some s
  | String a p' =>
      match s with
      | String b s' => if Ascii.eqb a b then strip_prefix p' s' else None
      | EmptyString => None
      end
  end.

(** The text before and after the first occurrence of [needle] *)
Fixpoint split_at_first (needle hay : string) : option (string * string) :=
  match strip_prefix needle hay with
  | Some rest => Some (EmptyString, rest)
  | None =>
      match hay with
      | EmptyString => None
      | String c r =>
          match split_at_first needle r with
          | Some (before, rest) => Some (String c before, rest)
          | None => None
          end
      end
  end.

(** [m.group(1)] of the search, when there is a match *)
Definition search_group (open close s : string) : option string :=
  match split_at_first open s with
  | Some (_, rest) =>
      match split_at_first close rest with
      | Some (group, _) => Some group
      | None => None
      end
  | None => None
  end.

End Tagged.

(** ** src/models/ollama_client.py and src/models/gemini_client.py

    The two adapters over a transport: the HTTP session of [aiohttp] and
    the [google.generativeai] model object. A client is built from the
    global settings, so its [host], [model] and [model_name] are read from
    them. The records the adapters hand to the logger are kept with the
    network state, in emission order. *)

Module Clients.

(** What [session.post] gives back: the status, and what awaiting
    [response.text()] and [(await response.json())["message"]["content"]]
    gives, each of which may raise. *)
Record HttpReply : Type := {
  reply_status : Z;
  reply_text : Outcome string;
  reply_content : Outcome string;
}.

(** The [payload] of [OllamaClient.generate] *)
Record ChatPayload : Type := {
  payload_model : string;
  payload_messages : list Message;
  payload_stream : bool;
}.

(** An entry of the history given to Gemini: [{"role": ..., "parts": [...]}] *)
Record Turn : Type := {
  turn_role : string;
  turn_parts : list string;
}.

Class Transport : Type := {
  Net : Type;
  (** [session.post(url, json=payload)] *)
  post_json : string -> ChatPayload -> Net -> Outcome HttpReply * Net;
  (** [(await model.start_chat(history=h).send_message_async(m)).text],
      for the model of that name *)
  chat_send : string -> list Turn -> string -> Net -> Outcome string * Net;
  (** [(await model.generate_content_async(prompt)).text] *)
  generate_content : string -> string -> Net -> Outcome string * Net;
  (** [datetime.now().isoformat()] *)
  net_clock : Net -> string * Net;
}.

(** A two-key message of the chat API *)
Definition chat_message (role content : string) : Message :=
  <["role" := role]> (<["content" := content]> ∅).

Definition ollama_system_prompt : string :=
  "You are OpenClaw, a helpful AI assistant. You provide clear, concise, "
  +:+ "and accurate responses. When you don't know something, you say so.".

(** Format messages for Ollama chat API. *)
Definition _format_messages (message : string) (context : option (list Message))
    : list Message :=
  let messages := [] in
  (* Add system prompt *)
  let messages := messages ++ [chat_message "system" ollama_system_prompt] in
  (* Add context/history *)
  let messages :=
    match context with
    | Some ((_ :: _) as context) => messages ++ context
    | _ => messages
    end in
  (* Add current message *)
  messages ++ [chat_message "user" message].

(** Format conversation history for Gemini. *)
Definition _format_history (context : option (list Message)) : list Turn :=
  match context with
  | Some ((_ :: _) as context) =>
      map (fun msg : Message =>
             {| turn_role := if Router.is_str (msg !! "role") "user"
                             then "user" else "model";
                turn_parts := [default EmptyString (msg !! "content")] |})
          context
  | _ => []
  end.

(** Build system prompt for Gemini. *)
Definition _build_system_prompt : string :=
  "You are OpenClaw, an advanced AI assistant capable of handling complex tasks."
  +:+ Core.nl +:+ Core.nl
  +:+ "Your capabilities include:" +:+ Core.nl
  +:+ "- Deep analysis and reasoning" +:+ Core.nl
  +:+ "- Code generation and debugging" +:+ Core.nl
  +:+ "- Research and comprehensive explanations" +:+ Core.nl
  +:+ "- Multi-step problem solving" +:+ Core.nl +:+ Core.nl
  +:+ "Guidelines:" +:+ Core.nl
  +:+ "- Provide thorough, well-structured responses" +:+ Core.nl
  +:+ "- Use code blocks with syntax highlighting when appropriate" +:+ Core.nl
  +:+ "- Break down complex topics into digestible parts" +:+ Core.nl
  +:+ "- Be accurate and acknowledge uncertainty when applicable".

(** The prompt of [generate_with_thinking] *)
Definition thinking_prompt (message : string) : string :=
  "Let's approach this step by step." +:+ Core.nl +:+ Core.nl
  +:+ "Question: " +:+ message +:+ Core.nl +:+ Core.nl
  +:+ "First, let me think through this:" +:+ Core.nl
  +:+ "<thinking>" +:+ Core.nl
  +:+ "[Your step-by-step reasoning here]" +:+ Core.nl
  +:+ "</thinking>" +:+ Core.nl +:+ Core.nl
  +:+ "Now, my response:" +:+ Core.nl
  +:+ "<response>" +:+ Core.nl
  +:+ "[Your final answer here]" +:+ Core.nl
  +:+ "</response>".

(** The parsing half of [generate_with_thinking]: the [dict] with the keys
    [thinking] and [response], as a pair *)
Definition parse_thinking (response : string) : string * string :=
  let thinking_match := Tagged.search_group "<thinking>" "</thinking>" response in
  let response_match := Tagged.search_group "<response>" "</response>" response in
  (match thinking_match with Some group => PyStr.strip group | None => EmptyString end,
   match response_match with Some group => PyStr.strip group | None => response end).

Section Adapters.
Context `{Transport}.
Variable settings_ : Config.Settings.

(** The network state with the records the adapters logged *)
Definition Wire : Type := Net * list (Level * string).

Definition wire_log (lvl : Level) (msg : string) (w : Wire) : Wire :=
  (fst w, snd w ++ [(lvl, msg)]).

(** [OllamaClient.generate] *)
Definition ollama_client_generate (message : string) (context : option (list Message))
    (w : Wire) : Outcome string * Wire :=
  let messages := _format_messages message context in
  let payload := {| payload_model := Config.ollama_model settings_;
                    payload_messages := messages;
                    payload_stream := false |} in
  let w := wire_log DEBUG ("Ollama request: " +:+ Config.ollama_model settings_) w in
  let (posted, n) :=
    post_json (Config.ollama_host settings_ +:+ "/api/chat") payload (fst w) in
  match posted with
  | Raised e => (Raised e, (n, snd w))
  | Returned response =>
      if negb (reply_status response =? 200) then
        match reply_text response with
        | Raised e => (Raised e, (n, snd w))
        | Returned error_text =>
            (Raised ("Ollama error (" +:+ PyStr.of_int (reply_status response) +:+ "): "
                     +:+ error_text),
             (n, snd w))
        end
      else (reply_content response, (n, snd w))
  end.

(** [GeminiClient.generate] *)
Definition gemini_client_generate (message : string) (context : option (list Message))
    (w : Wire) : Outcome string * Wire :=
  let w := wire_log DEBUG ("Gemini request: " +:+ Config.gemini_model settings_) w in
  (* Start a chat session with history *)
  let history := _format_history context in
  (* Add system context to the first message *)
  let system_prompt := _build_system_prompt in
  let (response, n) :=
    match history with
    | _ :: _ => chat_send (Config.gemini_model settings_) history message (fst w)
    | [] =>
        (* For first message, include system prompt *)
        let full_prompt := system_prompt +:+ Core.nl +:+ Core.nl +:+ "User: " +:+ message in
        generate_content (Config.gemini_model settings_) full_prompt (fst w)
    end in
  match response with
  | Returned text_ => (Returned text_, (n, snd w))
  | Raised e =>
      (Raised e, wire_log ERROR ("Gemini generation error: " +:+ e) (n, snd w))
  end.

(** [GeminiClient.generate_with_thinking] *)
Definition generate_with_thinking (message : string) (context : option (list Message))
    (w : Wire) : Outcome (string * string) * Wire :=
  let (response, w) := gemini_client_generate (thinking_prompt message) context w in
  match response with
  | Returned response => (Returned (parse_thinking response), w)
  | Raised e => (Raised e, w)
  end.

(** The engine's outside world when the adapters are these clients *)
Definition over_transport : Outside := {|
  settings := settings_;
  World := Wire;
  ollama_generate := ollama_client_generate;
  gemini_generate := gemini_client_generate;
  now_isoformat w := let (t, n) := net_clock (fst w) in (t, (n, snd w));
|}.

End Adapters.
End Clients.

(** ** src/agent/core.py: the global agent *)

Module Singleton.
Section Global.
Context `{Outside}.

(** Get or create the global agent instance. [_agent] is the module
    global; the agent returned is that very object, so a caller that
    mutates it is seen through the global. *)
Definition get_agent (_agent : option Core.Agent) : M (Core.Agent * option Core.Agent) :=
  match _agent with
  | None =>
      let* created := Core.__init__ in
      ret (created, Some created)
  | Some existing => ret (existing, Some existing)
  end.

End Global.
End Singleton.

(** ** src/main.py: the two POST routes

    [request.get_json()] is taken to give [None] or a JSON object whose
    values are strings, the body the docstrings expect. The routes act on
    the module global [agent], threaded here as a value. *)

Module App.

Inductive Body : Type :=
| ErrorBody (reason : string)          (* {"error": reason} *)
| ResponseBody (response : Response)   (* jsonify(response) *)
| ClearedBody (note : string).         (* {"success": True, "message": note} *)

(** Truth value of the parsed body *)
Definition truthy_data (data : option (gmap string string)) : bool :=
  match data with
  | Some d => negb (bool_decide (d = ∅))
  | None => false
  end.

Section Routes.
Context `{Outside}.

(** Handle incoming messages from WhatsApp channel. Nothing that
    [process_message] awaits raises past it, so the [except] clause of the
    route has nothing to catch. *)
Definition handle_message (agent : Core.Agent) (data : option (gmap string string))
    : M (Body * Z * Core.Agent) :=
  if negb (truthy_data data)
  then ret (ErrorBody "No JSON data provided", 400, agent)
  else
    let message := default ∅ data !! "message" in
    let user_id := default "anonymous" (default ∅ data !! "user_id") in
    if negb (Router.truthy_str message)
    then ret (ErrorBody "No message provided", 400, agent)
    else
      let message := default EmptyString message in
      let* _ := logger INFO ("API request from " +:+ user_id +:+ ": "
                             +:+ PyStr.take 50 message +:+ "...") in
      let* answered := Core.process_message agent message user_id None in
      ret (ResponseBody (fst answered), 200, snd answered).

(** Clear conversation history for a user. *)
Definition clear_history (agent : Core.Agent) (data : option (gmap string string))
    : M (Body * Z * Core.Agent) :=
  let user_id := if truthy_data data then default ∅ data !! "user_id" else None in
  if negb (Router.truthy_str user_id)
  then ret (ErrorBody "No user_id provided", 400, agent)
  else
    let user_id := default EmptyString user_id in
    let* agent := Core.clear_history agent user_id in
    ret (ClearedBody ("History cleared for " +:+ user_id), 200, agent).

End Routes.
End App.

(** ** Shapes used by the statements *)

Module Shape.

Definition apology : string :=
  "I'm sorry, I encountered an error processing your request.".

(** The key pattern of every [dict] that [generate] returns *)
Definition of_generate (r : Response) : Prop :=
  (model r = "ollama" \/ model r = "gemini")
  /\ (success r = true <-> error r = None)
  /\ (success r = true <-> is_Some (model_version r))
  /\ (success r = false -> text r = apology)
  /\ (fallback r = None
      \/ (fallback r = Some true /\ success r = true /\ model r = "ollama")).

(** No character of the string is white space *)
Definition spaceless (s : string) : bool :=
  forallb (fun c => negb (PyStr.isspace c)) (list_ascii_of_string s).

(** A word as [split] produces them *)
Definition word (s : string) : Prop := s <> EmptyString /\ spaceless s = true.

(** The first character of [needle] occurs nowhere else in it *)
Definition head_unique (needle : string) : bool :=
  match needle with
  | EmptyString => false
  | String a rest => forallb (fun c => negb (Ascii.eqb a c)) (list_ascii_of_string rest)
  end.

End Shape.

(** ** Settings and agents for further runs *)

Module Cases.

(** The default settings with a trailing pipe in the keyword string *)
Definition trailing_pipe : Config.Settings := {|
  Config.ollama_host := Config.ollama_host Config.defaults;
  Config.ollama_model := Config.ollama_model Config.defaults;
  Config.gemini_api_key := None;
  Config.gemini_model := Config.gemini_model Config.defaults;
  Config.complexity_threshold := 500;
  Config.gemini_trigger_keywords := "analyze|";
  Config.max_history_length := 20;
|}.

Definition trailing_pipe_world : Outside :=
  Scripted.outside_world trailing_pipe (Returned "local answer") (Returned "cloud answer").

End Cases.

(** ** The generation exchange

    The statements shared by the normal path of [process_message] and the
    forced path of [_handle_model_command]: store the user entry, take the
    context, generate, store the answer of a success. *)

Module Steps.
Section Exchange.
Context `{Outside}.

Definition exchange (self : Core.Agent) (user_id message : string)
    (force_model : option string) (e : Env) : Response * Core.Agent * Env :=
  let (timestamp, w1) := now_isoformat (world e) in
  let self1 := Reading.appended self user_id "user" message timestamp in
  let (response, e2) :=
    Router.generate (Core.router self) message
      (Some (PyList.slice_to (-1) (Reading.history_of self1 user_id))) force_model
      {| world := w1; logs := logs e |} in
  let (self2, e3) :=
    (if success response
     then Core._add_to_history self1 user_id "assistant" (text response)
     else ret self1) e2 in
  (response, self2, e3).

End Exchange.
End Steps.

(** ** Handlers of one more run *)

Module Watch.

(** An agent with one recording handler, and a second handler to register *)
Definition audited : @Core.Agent Scripted.all_up :=
  @Scripted.agent Scripted.all_up (Scripted.both_adapters [] 500) 20
    [Scripted.recording_handler "audit" (Returned tt)].

Definition late : @Core.Handler Scripted.all_up :=
  Scripted.recording_handler "late" (Raised "late failure").

End Watch.

(** ** A scripted network *)

Module Wires.

Inductive NetEvent : Type :=
| Posted (url : string) (payload : Clients.ChatPayload)
| ChatSent (model_name : string) (history : list Clients.Turn) (message : string)
| ContentAsked (model_name prompt : string)
| ClockRead.

(** A network that records what it is asked and answers from a script *)
Definition scripted (posted : Outcome Clients.HttpReply) (cloud : Outcome string)
    : Clients.Transport := {|
  Clients.Net := list NetEvent;
  Clients.post_json url payload n := (posted, n ++ [Posted url payload]);
  Clients.chat_send model_name history message n :=
    (cloud, n ++ [ChatSent model_name history message]);
  Clients.generate_content model_name prompt n :=
    (cloud, n ++ [ContentAsked model_name prompt]);
  Clients.net_clock n := (Scripted.midnight, n ++ [ClockRead]);
|}.

(** Ollama answers 503 with the body [overloaded] *)
Definition overloaded : Clients.Transport :=
  scripted (Returned {| Clients.reply_status := 503;
                        Clients.reply_text := Returned "overloaded";
                        Clients.reply_content := Raised "no body was parsed" |})
           (Returned "cloud answer").

(** The engine over that network, under the default settings *)
Definition overloaded_world : Outside :=
  @Clients.over_transport overloaded Config.defaults.

(** An agent over that network whose user has one stored entry *)
Definition greeted : @Core.Agent overloaded_world :=
  fst (@Core._add_to_history overloaded_world
         (@Scripted.agent overloaded_world (Scripted.both_adapters [] 500) 20 [])
         "alice" "user" "one" (@Scripted.start overloaded_world ([], []))).

End Wires.

(** ** Readings of the adapters *)

Module ClientReading.
Section Gemini.
Context `{Clients.Transport}.

(** The state after the request was logged *)
Definition requested (model_name : string) (w : Clients.Wire) : Clients.Wire :=
  Clients.wire_log DEBUG ("Gemini request: " +:+ model_name) w.

(** What [GeminiClient.generate] makes of the outcome of its one call to
    the API, [w] being the state after the request was logged: an answer is
    returned, an exception is logged and raised again *)
Definition finish (w : Clients.Wire) (call : Outcome string * Clients.Net)
    : Outcome string * Clients.Wire :=
  match call with
  | (Returned answer, n) => (Returned answer, (n, snd w))
  | (Raised x, n) =>
      (Raised x, Clients.wire_log ERROR ("Gemini generation error: " +:+ x) (n, snd w))
  end.

(** The prompt of a conversation that has no history *)
Definition first_prompt (message : string) : string :=
  Clients._build_system_prompt +:+ Core.nl +:+ Core.nl +:+ "User: " +:+ message.

End Gemini.
End ClientReading.

(** * Properties *)

(** ** Running the monad *)

Section MonadFacts.
Context `{Outside}.

Lemma env_eta (e : Env) : {| world := world e; logs := logs e |} = e.
Proof. destruct e; reflexivity. Qed.

Lemma logged_nil e : logged e [] = e.
Proof. unfold logged. rewrite app_nil_r. apply env_eta. Qed.

Lemma logged_logged e r1 r2 : logged (logged e r1) r2 = logged e (r1 ++ r2).
Proof. unfold logged; simpl. now rewrite app_assoc. Qed.

Lemma logger_run lvl msg e : logger lvl msg e = (tt, logged e [(lvl, msg)]).
Proof. reflexivity. Qed.

Lemma world_logged e r : world (logged e r) = world e.
Proof. reflexivity. Qed.

End MonadFacts.

(** ** Facts about Python strings *)




(** ** The router *)

Section RouterFacts.
Context `{Outside}.

Lemma sum_from (l : list Z) (a : Z) : fold_left Z.add l a = a + fold_left Z.add l 0.
Proof.
  revert a; induction l as [|x l IH]; intros a; simpl; [lia|].
  rewrite (IH (a + x)), (IH (0 + x)). lia.
Qed.

Lemma sum_context (context : list Message) :
  Router.sum (map (fun msg : Message =>
      Z.of_nat (length (PyStr.split (default EmptyString (msg !! "content")))))
    context) = Spec.context_word_count context.
Proof.
  unfold Router.sum.
  induction context as [|msg l IH]; simpl; [reflexivity|].
  rewrite sum_from, IH. reflexivity.
Qed.

Lemma count_cons {A} (p : A -> bool) x l :
  Spec.count p (x :: l) = (if p x then 1 else 0) + Spec.count p l.
Proof. unfold Spec.count; simpl. destruct (p x); simpl length; lia. Qed.

Lemma count_nonneg {A} (p : A -> bool) l : 0 <= Spec.count p l.
Proof. unfold Spec.count. lia. Qed.

Lemma context_word_count_nonneg l : 0 <= Spec.context_word_count l.
Proof. induction l; simpl; unfold Spec.word_count in *; lia. Qed.

(** The keyword loop adds 200 per keyword found and logs each one. *)
Lemma keyword_loop (message_lower : string) keywords (score : Z) (e : Env) :
  for_fold (fun score keyword =>
      if PyStr.contains keyword message_lower
      then let* _ := logger DEBUG ("Trigger keyword found: '" +:+ keyword +:+ "'") in
           ret (score + 200)
      else ret score) keywords score e
  = (score + 200 * Spec.count (fun k => PyStr.contains k message_lower) keywords,
     logged e (map (fun k => (DEBUG, "Trigger keyword found: '" +:+ k +:+ "'"))
                 (List.filter (fun k => PyStr.contains k message_lower) keywords))).
Proof.
  revert score e; induction keywords as [|k l IH]; intros score e; simpl.
  - unfold ret. rewrite logged_nil. f_equal. unfold Spec.count; simpl; lia.
  - rewrite count_cons. unfold bind at 1.
    destruct (PyStr.contains k message_lower); simpl.
    + unfold bind, ret, logger; simpl. rewrite IH.
      f_equal; [lia|]. unfold logged; simpl. now rewrite <- app_assoc.
    + unfold ret. rewrite IH. f_equal; lia.
Qed.

(** The pattern loop adds 100 per pattern found. *)
Lemma pattern_loop (message_lower : string) patterns (score : Z) :
  fold_left (fun score pattern =>
      if Re.search pattern message_lower then score + 100 else score) patterns score
  = score + 100 * Spec.count (fun p => Re.search p message_lower) patterns.
Proof.
  revert score; induction patterns as [|p l IH]; intros score; simpl.
  - unfold Spec.count; simpl; lia.
  - rewrite IH, count_cons. destruct (Re.search p message_lower); lia.
Qed.

Lemma calculate_complexity_run self message context (e : Env) :
  Router._calculate_complexity self message context e
  = (Reading.score self message context, logged e (Reading.keyword_records self message)).
Proof.
  unfold Router._calculate_complexity, Reading.score, Reading.keyword_records.
  unfold bind at 1. rewrite keyword_loop. unfold ret. f_equal.
  rewrite pattern_loop. unfold Spec.has_code, Spec.pattern_matches, Spec.word_count.
  set (w := Z.of_nat (length (PyStr.split message))).
  set (k := Spec.count _ (Router.trigger_keywords self)).
  set (q := Spec.count _ Router.complex_patterns).
  destruct context as [[|msg l]|]; simpl default.
  - simpl Spec.context_word_count. rewrite Z.div_0_l by lia.
    destruct (_ || _); lia.
  - rewrite sum_context. destruct (_ || _); lia.
  - simpl Spec.context_word_count. rewrite Z.div_0_l by lia.
    destruct (_ || _); lia.
Qed.


Lemma choose_model_run self message context force_model (e : Env) :
  Router.choose_model self message context force_model e
  = (Spec.is_cloud (Reading.chosen self message context force_model),
     logged e (Reading.choice_records self message context force_model)).
Proof.
  unfold Router.choose_model, Reading.chosen, Reading.choice_records, Spec.force_of.
  destruct (Router.is_str force_model "gemini") eqn:Hg; simpl.
  - destruct (Router.truthy (Router.gemini self)) eqn:Hc; simpl.
    + unfold ret. now rewrite logged_nil.
    + assert (Router.is_str force_model "ollama" = false) as ->.
      { destruct force_model as [f|]; simpl in *; [|reflexivity].
        apply String.eqb_eq in Hg; subst; reflexivity. }
      unfold Router._should_use_gemini. rewrite Hc; simpl.
      unfold ret, Spec.unforced. now rewrite logged_nil.
  - destruct (Router.is_str force_model "ollama") eqn:Ho; simpl.
    + unfold ret. now rewrite logged_nil.
    + unfold Router._should_use_gemini, Spec.unforced.
      destruct (Router.truthy (Router.gemini self)) eqn:Hc; simpl.
      * unfold bind at 1. rewrite calculate_complexity_run.
        unfold bind, logger, ret; simpl. f_equal.
        -- now destruct (_ <=? _).
        -- unfold logged; simpl. now rewrite <- !app_assoc.
      * unfold ret. now rewrite logged_nil.
Qed.

Lemma chosen_cloud_configured self message context force_model :
  Reading.chosen self message context force_model = Spec.cloud ->
  Router.truthy (Router.gemini self) = true.
Proof.
  unfold Reading.chosen, Spec.policy, Spec.unforced.
  destruct (Router.truthy (Router.gemini self)); [reflexivity|].
  destruct (Spec.force_of force_model) as [[]|]; simpl; discriminate.
Qed.

(** [generate] when the local backend is chosen *)
Lemma generate_local self message context force_model (e : Env) :
  Reading.chosen self message context force_model = Spec.local ->
  Router.generate self message context force_model e
  = let e1 := logged e (Reading.choice_records self message context force_model) in
    match Router.call_ollama self message context e1 with
    | (Returned response, e2) => (Reading.answered Spec.local response, e2)
    | (Raised x, e2) =>
        (Reading.failed Spec.local x, logged e2 [(ERROR, "Error with ollama: " +:+ x)])
    end.
Proof.
  intros Hb. unfold Router.generate. unfold bind at 1.
  rewrite choose_model_run, Hb; simpl Spec.is_cloud; cbv iota.
  unfold bind at 1; cbv zeta.
  destruct (Router.call_ollama _ _ _ _) as [[response|x] e2]; [reflexivity|].
  unfold bind at 1. rewrite logger_run. reflexivity.
Qed.

(** [generate] when the cloud backend is chosen *)
Lemma generate_cloud self message context force_model (e : Env) :
  Reading.chosen self message context force_model = Spec.cloud ->
  Router.generate self message context force_model e
  = let e1 := logged e (Reading.choice_records self message context force_model) in
    match gemini_generate message context (world e1) with
    | (Returned response, w2) =>
        (Reading.answered Spec.cloud response, {| world := w2; logs := logs e1 |})
    | (Raised x, w2) =>
        let e3 := logged {| world := w2; logs := logs e1 |}
                         [(ERROR, "Error with gemini: " +:+ x)] in
        if Router.truthy (Router.ollama self) then
          match Router.call_ollama self message context
                  (logged e3 [(INFO, "Falling back to Ollama")]) with
          | (Returned response, e4) => (Reading.fell_back response, e4)
          | (Raised y, e4) =>
              (Reading.failed Spec.cloud x,
               logged e4 [(ERROR, "Fallback also failed: " +:+ y)])
          end
        else (Reading.failed Spec.cloud x, e3)
    end.
Proof.
  intros Hb. pose proof (chosen_cloud_configured _ _ _ _ Hb) as Hc.
  unfold Router.generate. unfold bind at 1.
  rewrite choose_model_run, Hb; simpl Spec.is_cloud; cbv iota.
  unfold bind at 1; cbv zeta. unfold Router.call_gemini.
  destruct (Router.gemini self); [|discriminate]. unfold outside.
  destruct (gemini_generate _ _ _) as [[response|x] w2]; [reflexivity|].
  unfold bind at 1. rewrite logger_run.
  destruct (Router.truthy (Router.ollama self)); cbn [andb]; [|reflexivity].
  unfold bind at 1. rewrite logger_run. unfold bind at 1.
  destruct (Router.call_ollama _ _ _ _) as [[response|y] e4]; [reflexivity|].
  unfold bind at 1. rewrite logger_run. reflexivity.
Qed.

(** The local call touches the world only through [ollama_generate]. *)
Lemma call_ollama_world self message context (e : Env) :
  Router.call_ollama self message context e
  = match Router.ollama self with
    | Some _ => let (r, w) := ollama_generate message context (world e) in
                (r, {| world := w; logs := logs e |})
    | None => (Raised Router.none_has_no_generate, e)
    end.
Proof. unfold Router.call_ollama. destruct (Router.ollama self); reflexivity. Qed.

End RouterFacts.

(** ** Routing policy, scoring and fallback *)




(** C2. When cloud is selected, the cloud call fails and the local adapter
    exists, [generate] calls the local adapter once, in the world the cloud
    call left. If that call answers, the response is the local answer marked
    as a fallback; if it fails too, the response is a failure carrying the
    cloud error and naming the cloud backend. *)
Theorem cloud_failure_falls_back_once `{Outside} self message context force_model
    (e : Env) (x : string) (w1 : World) (o : Router.OllamaClient) :
  fst (Router.choose_model self message context force_model e) = true ->
  gemini_generate message context (world e) = (Raised x, w1) ->
  Router.ollama self = Some o ->
  let (response, e') := Router.generate self message context force_model e in
  world e' = snd (ollama_generate message context w1)
  /\ response = match fst (ollama_generate message context w1) with
                | Returned answer =>
                    {| text := answer; model := "ollama";
                       model_version := Some (Config.ollama_model settings);
                       success := true; fallback := Some true; error := None |}
                | Raised _ =>
                    {| text := "I'm sorry, I encountered an error processing your request.";
                       model := "gemini"; model_version := None;
                       success := false; fallback := None; error := Some x |}
                end.
Proof.
  intros Hsel Hfail Ho. rewrite choose_model_run in Hsel; simpl in Hsel.
  destruct (Reading.chosen self message context force_model) eqn:Hb; [discriminate|].
  rewrite (generate_cloud _ _ _ _ _ Hb); cbv zeta.
  rewrite world_logged, Hfail, call_ollama_world, Ho. simpl Router.truthy; cbv iota.
  simpl world.
  destruct (ollama_generate message context w1) as [[answer|y] w2]; simpl; auto.
Qed.

(** C5. When local is selected and the local call fails, [generate] returns
    at once: the response is a failure carrying that error, and the
    environment is the one the single local call left, plus the error
    record. Nothing is retried and the cloud adapter is not called. *)
Theorem local_failure_is_terminal `{Outside} self message context force_model
    (e e2 : Env) (x : string) :
  fst (Router.choose_model self message context force_model e) = false ->
  Router.call_ollama self message context
    (snd (Router.choose_model self message context force_model e)) = (Raised x, e2) ->
  Router.generate self message context force_model e
  = ({| text := "I'm sorry, I encountered an error processing your request.";
        model := "ollama"; model_version := None;
        success := false; fallback := None; error := Some x |},
     logged e2 [(ERROR, "Error with ollama: " +:+ x)])
  /\ world e2 = match Router.ollama self with
                | Some _ => snd (ollama_generate message context (world e))
                | None => world e
                end.
Proof.
  intros Hsel Hfail. rewrite choose_model_run in Hsel, Hfail; simpl in Hsel, Hfail.
  destruct (Reading.chosen self message context force_model) eqn:Hb; [|discriminate].
  rewrite (generate_local _ _ _ _ _ Hb); cbv zeta. rewrite Hfail.
  split; [reflexivity|].
  rewrite call_ollama_world in Hfail. destruct (Router.ollama self).
  - rewrite world_logged in Hfail.
    destruct (ollama_generate message context (world e)) as [r w].
    injection Hfail as _ <-. reflexivity.
  - injection Hfail as _ <-. reflexivity.
Qed.

(** C10. Forcing cloud on a router without a cloud adapter does not fail:
    the choice falls through to the unforced policy, which selects local
    without scoring, and the whole call is the unforced call. *)
Theorem forced_cloud_without_adapter_is_unforced_local `{Outside} self message context
    (e : Env) :
  Router.gemini self = None ->
  Router.choose_model self message context (Some "gemini") e = (false, e)
  /\ Router.choose_model self message context None e = (false, e)
  /\ Router.generate self message context (Some "gemini") e
     = Router.generate self message context None e
  /\ fst (Router.generate self message context (Some "gemini") e)
     = match fst (Router.call_ollama self message context e) with
       | Returned answer =>
           {| text := answer; model := "ollama";
              model_version := Some (Config.ollama_model settings);
              success := true; fallback := None; error := None |}
       | Raised x =>
           {| text := "I'm sorry, I encountered an error processing your request.";
              model := "ollama"; model_version := None;
              success := false; fallback := None; error := Some x |}
       end.
Proof.
  intros Hg.
  assert (Hf : Router.choose_model self message context (Some "gemini") e = (false, e)).
  { unfold Router.choose_model, Router._should_use_gemini. rewrite Hg. reflexivity. }
  assert (Hn : Router.choose_model self message context None e = (false, e)).
  { unfold Router.choose_model, Router._should_use_gemini. rewrite Hg. reflexivity. }
  split; [exact Hf|]. split; [exact Hn|].
  assert (Hgen : forall f, Router.choose_model self message context f e = (false, e) ->
    Router.generate self message context f e
    = match Router.call_ollama self message context e with
      | (Returned answer, e2) => (Reading.answered Spec.local answer, e2)
      | (Raised x, e2) =>
          (Reading.failed Spec.local x, logged e2 [(ERROR, "Error with ollama: " +:+ x)])
      end).
  { intros f Hc. unfold Router.generate. unfold bind at 1. rewrite Hc.
    unfold bind at 1.
    destruct (Router.call_ollama _ _ _ _) as [[answer|x] e2]; [reflexivity|].
    unfold bind at 1. rewrite logger_run. reflexivity. }
  split; [now rewrite (Hgen _ Hf), (Hgen _ Hn)|].
  rewrite (Hgen _ Hf).
  destruct (Router.call_ollama _ _ _ _) as [[answer|x] e2]; reflexivity.
Qed.

(** A run of C2: both adapters configured, threshold 0, the cloud call
    raises and the local call answers. The trace shows one cloud call
    followed by one local call. *)
Lemma cloud_failure_falls_back_once_witness :
  let (response, e') :=
    @Router.generate Scripted.cloud_down (Scripted.both_adapters [] 0) "hi" None None
      (@Scripted.start Scripted.cloud_down []) in
  world e' = [Scripted.CallGemini "hi" None; Scripted.CallOllama "hi" None]
  /\ response = {| text := "local answer"; model := "ollama";
                   model_version := Some "llama3.2";
                   success := true; fallback := Some true; error := None |}.
Proof.
  exact (@cloud_failure_falls_back_once Scripted.cloud_down
           (Scripted.both_adapters [] 0) "hi" None None
           (@Scripted.start Scripted.cloud_down [])
           "quota exceeded" [Scripted.CallGemini "hi" None] Router.OllamaClient_obj
           eq_refl eq_refl eq_refl).
Defined.

(** The same run with a local adapter that raises too: the failure carries
    the cloud error and names the cloud backend. *)
Example fallback_failure_keeps_cloud_error :
  @Router.generate Scripted.both_down (Scripted.both_adapters [] 0) "hi" None None
    (@Scripted.start Scripted.both_down [])
  = ({| text := "I'm sorry, I encountered an error processing your request.";
        model := "gemini"; model_version := None;
        success := false; fallback := None; error := Some "quota exceeded" |},
     @Build_Env Scripted.both_down
       [Scripted.CallGemini "hi" None; Scripted.CallOllama "hi" None]
       [(DEBUG, "Complexity score: 1, threshold: 0");
        (DEBUG, "Using Gemini");
        (ERROR, "Error with gemini: quota exceeded");
        (INFO, "Falling back to Ollama");
        (ERROR, "Fallback also failed: connection refused")]).
Proof. reflexivity. Qed.

(** A run of C5: the score is below the threshold, local is selected and
    raises; the trace holds the one local call. *)
Lemma local_failure_is_terminal_witness :
  @Router.generate Scripted.local_down (Scripted.both_adapters [] 500) "hi" None None
    (@Scripted.start Scripted.local_down [])
  = ({| text := "I'm sorry, I encountered an error processing your request.";
        model := "ollama"; model_version := None;
        success := false; fallback := None; error := Some "connection refused" |},
     @Build_Env Scripted.local_down
       [Scripted.CallOllama "hi" None]
       [(DEBUG, "Complexity score: 1, threshold: 500");
        (DEBUG, "Using Ollama");
        (ERROR, "Error with ollama: connection refused")])
  /\ [Scripted.CallOllama "hi" None] = [Scripted.CallOllama "hi" None].
Proof.
  exact (@local_failure_is_terminal Scripted.local_down
           (Scripted.both_adapters [] 500) "hi" None None
           (@Scripted.start Scripted.local_down [])
           (@Build_Env Scripted.local_down
              [Scripted.CallOllama "hi" None]
              [(DEBUG, "Complexity score: 1, threshold: 500"); (DEBUG, "Using Ollama")])
           "connection refused" eq_refl eq_refl).
Defined.

(** A run of C10: a local-only router asked for the cloud backend. *)
Lemma forced_cloud_without_adapter_witness :
  @Router.generate Scripted.all_up (Scripted.local_only ["analyze"] 0)
    "analyze this" None (Some "gemini") (@Scripted.start Scripted.all_up [])
  = ({| text := "local answer"; model := "ollama"; model_version := Some "llama3.2";
        success := true; fallback := None; error := None |},
     @Build_Env Scripted.all_up [Scripted.CallOllama "analyze this" None] []).
Proof.
  destruct (@forced_cloud_without_adapter_is_unforced_local Scripted.all_up
              (Scripted.local_only ["analyze"] 0) "analyze this" None
              (@Scripted.start Scripted.all_up []) eq_refl) as (_ & _ & Heq & _).
  rewrite Heq. reflexivity.
Defined.

(** ** The conversation store *)

Section StoreFacts.
Context `{Outside}.

Lemma add_to_history_run self user_id role content (e : Env) :
  Core._add_to_history self user_id role content e
  = let (timestamp, w) := now_isoformat (world e) in
    (Reading.appended self user_id role content timestamp,
     {| world := w; logs := logs e |}).
Proof.
  unfold Core._add_to_history, Core._get_conversation, Reading.appended,
    Reading.history_of, Reading.trimmed.
  destruct (Core.conversations self !! user_id) as [history|]; simpl;
    unfold bind, outside; destruct (now_isoformat (world e)) as [timestamp w]; simpl;
    match goal with |- context [?a <? ?b] => destruct (a <? b) end;
    unfold ret, Core.with_conversations; simpl; rewrite ?insert_insert_eq; reflexivity.
Qed.

Lemma history_of_appended self user_id role content timestamp :
  Reading.history_of (Reading.appended self user_id role content timestamp) user_id
  = Reading.trimmed (Core.max_history self)
      (Reading.history_of self user_id ++ [Core.new_message role content timestamp]).
Proof. unfold Reading.history_of at 1, Reading.appended; simpl. now rewrite lookup_insert_eq. Qed.

Lemma history_of_appended_other self user_id role content timestamp other :
  user_id <> other ->
  Reading.history_of (Reading.appended self user_id role content timestamp) other
  = Reading.history_of self other.
Proof.
  intros Hne. unfold Reading.history_of, Reading.appended; simpl.
  now rewrite lookup_insert_ne.
Qed.

Lemma max_history_appended self user_id role content timestamp :
  Core.max_history (Reading.appended self user_id role content timestamp)
  = Core.max_history self.
Proof. reflexivity. Qed.

Lemma length_last_n {A} (n : nat) (l : list A) : (length (Reading.last_n n l) <= n)%nat.
Proof. unfold Reading.last_n. rewrite length_drop. lia. Qed.

Lemma last_n_all {A} (n : nat) (l : list A) :
  (length l <= n)%nat -> Reading.last_n n l = l.
Proof.
  intros Hl. unfold Reading.last_n.
  replace (length l - n)%nat with 0%nat by lia. reflexivity.
Qed.

(** Cutting to the last [n] before more entries arrive loses nothing that
    cutting afterwards keeps. *)
Lemma last_n_app {A} (n : nat) (l r : list A) :
  Reading.last_n n (Reading.last_n n l ++ r) = Reading.last_n n (l ++ r).
Proof.
  destruct (Nat.le_gt_cases (length l) n) as [Hle|Hgt].
  - now rewrite (last_n_all n l).
  - unfold Reading.last_n. rewrite !length_app, length_drop.
    replace (length l - (length l - n) + length r - n)%nat with (length r) by lia.
    replace (length l + length r - n)%nat with ((length l - n) + length r)%nat by lia.
    rewrite <- drop_drop. f_equal.
    rewrite drop_app_le by lia. reflexivity.
Qed.

(** For a bound of at least one the trimming statement keeps the last
    [max_history] entries. *)
Lemma trimmed_last_n (max_history : Z) (history : list Message) :
  1 <= max_history ->
  Reading.trimmed max_history history = Reading.last_n (Z.to_nat max_history) history.
Proof.
  intros Hm. unfold Reading.trimmed, Reading.last_n, PyList.slice_from, PyList.clamp.
  destruct (max_history <? Z.of_nat (length history)) eqn:Hlt.
  - apply Z.ltb_lt in Hlt.
    assert ((- max_history <? 0) = true) as -> by (apply Z.ltb_lt; lia).
    f_equal. lia.
  - apply Z.ltb_ge in Hlt.
    replace (length history - Z.to_nat max_history)%nat with 0%nat by lia. reflexivity.
Qed.

(** With a bound of at least one, whatever the clock says, a history that
    starts within the bound stays within it, and holds the last
    [max_history] of the entries it had and the entries appended for its
    user since, in the order of the appends. *)
Lemma appends_keep_most_recent ops : forall self (e : Env) user_id,
  1 <= Core.max_history self ->
  (length (Reading.history_of self user_id) <= Z.to_nat (Core.max_history self))%nat ->
  let self' := fst (Reading.appends self ops e) in
  Reading.history_of self' user_id
  = Reading.last_n (Z.to_nat (Core.max_history self))
      (Reading.history_of self user_id ++ Reading.entries_for user_id ops (world e))
  /\ Core.max_history self' = Core.max_history self.
Proof.
  induction ops as [|[[u role] content] ops IH]; intros self e user_id Hm Hlen; cbv zeta.
  - simpl. rewrite app_nil_r. split; [|reflexivity].
    symmetry. now apply last_n_all.
  - simpl Reading.appends. unfold bind. rewrite add_to_history_run.
    simpl Reading.entries_for.
    destruct (now_isoformat (world e)) as [timestamp w].
    set (n := Z.to_nat (Core.max_history self)) in *.
    assert (Hstep : Reading.history_of (Reading.appended self u role content timestamp) user_id
      = Reading.last_n n (Reading.history_of self user_id
          ++ (if String.eqb u user_id
              then [Core.new_message role content timestamp] else []))).
    { destruct (String.eqb u user_id) eqn:Hu.
      - apply String.eqb_eq in Hu; subst u.
        now rewrite history_of_appended, trimmed_last_n.
      - apply String.eqb_neq in Hu.
        rewrite history_of_appended_other, app_nil_r by exact Hu.
        symmetry. now apply last_n_all. }
    destruct (IH (Reading.appended self u role content timestamp)
                 {| world := w; logs := logs e |} user_id) as [IH1 IH2].
    + exact Hm.
    + rewrite Hstep, max_history_appended. apply length_last_n.
    + split; [|exact IH2].
      rewrite IH1, max_history_appended, Hstep. fold n. simpl world.
      rewrite last_n_app, <- app_assoc. reflexivity.
Qed.

End StoreFacts.

(** From an empty store and with a bound of at least one, the history of
    every user is the last [max_history] entries appended for that user, in
    insertion order, and never longer than the bound. *)
Lemma history_bounded_for_positive_bound `{Outside} self ops (e : Env) user_id :
  1 <= Core.max_history self ->
  Core.conversations self = ∅ ->
  let history := Reading.history_of (fst (Reading.appends self ops e)) user_id in
  history = Reading.last_n (Z.to_nat (Core.max_history self))
              (Reading.entries_for user_id ops (world e))
  /\ Z.of_nat (length history) <= Core.max_history self.
Proof.
  intros Hm Hc. cbv zeta.
  assert (Hh : Reading.history_of self user_id = []).
  { unfold Reading.history_of. rewrite Hc, lookup_empty. reflexivity. }
  destruct (appends_keep_most_recent ops self e user_id Hm) as [Heq _].
  { rewrite Hh. simpl. lia. }
  rewrite Heq, Hh. simpl app. split; [reflexivity|].
  pose proof (length_last_n (Z.to_nat (Core.max_history self))
                (Reading.entries_for user_id ops (world e))).
  lia.
Qed.

(** C3, at the bound 0. For an agent whose [max_history] is 0 the trimming
    statement takes the slice [history[-0:]], the whole list: an append
    only extends the stored history, which is then longer than the bound. *)
Theorem zero_bound_is_never_enforced `{Outside} (r : Router.ModelRouter)
    (c : gmap string (list Message)) (handlers : list Core.Handler)
    (user_id role content : string) (e : Env) :
  let self := {| Core.router := r; Core.conversations := c;
                 Core.max_history := 0; Core._message_handlers := handlers |} in
  let self' := fst (Core._add_to_history self user_id role content e) in
  Reading.history_of self' user_id
  = Reading.history_of self user_id
    ++ [Core.new_message role content (fst (now_isoformat (world e)))]
  /\ Core.max_history self' < Z.of_nat (length (Reading.history_of self' user_id)).
Proof.
  cbv zeta. rewrite add_to_history_run.
  destruct (now_isoformat (world e)) as [timestamp w]. simpl fst.
  rewrite history_of_appended. simpl Core.max_history.
  set (l := Reading.history_of _ user_id ++ [_]).
  assert (Hl : (0 < length l)%nat) by (subst l; rewrite length_app; simpl; lia).
  assert (Ht : Reading.trimmed 0 l = l).
  { unfold Reading.trimmed, PyList.slice_from, PyList.clamp.
    change (- 0) with 0. change (0 <? 0) with false. cbv iota.
    destruct (0 <? Z.of_nat (length l)); [|reflexivity].
    replace (Z.to_nat (Z.min (Z.of_nat (length l)) 0)) with 0%nat by lia. reflexivity. }
  rewrite Ht. split; [reflexivity|lia].
Qed.

(** The store of the test suite's scenario with the bound set to 0: after
    three appends the three entries are all there. *)
Example zero_bound_three_appends :
  let self := @Scripted.agent Scripted.all_up (Scripted.local_only [] 500) 0 [] in
  let self' := fst (@Reading.appends Scripted.all_up self
                      [("alice", "user", "Message 0"); ("alice", "user", "Message 1");
                       ("alice", "user", "Message 2")]
                      (@Scripted.start Scripted.all_up [])) in
  Scripted.summary (Reading.history_of self' "alice")
  = [(Some "user", Some "Message 0"); (Some "user", Some "Message 1");
     (Some "user", Some "Message 2")].
Proof. vm_compute. reflexivity. Qed.

(** The scenario of the test suite: ten appends under a bound of five leave
    the five most recent entries. *)
Example five_of_ten_appends :
  let self := @Scripted.agent Scripted.all_up (Scripted.local_only [] 500) 5 [] in
  let self' := fst (@Reading.appends Scripted.all_up self Scenario.ten_messages
                      (@Scripted.start Scripted.all_up [])) in
  map snd (Scripted.summary (Reading.history_of self' "alice"))
  = [Some "Message 5"; Some "Message 6"; Some "Message 7"; Some "Message 8";
     Some "Message 9"].
Proof. vm_compute. reflexivity. Qed.

(** The test suite's scenario through the general statement: a bound of
    five and ten appends for one user. *)
Lemma history_bounded_for_positive_bound_witness :
  let self := @Scripted.agent Scripted.all_up (Scripted.local_only [] 500) 5 [] in
  let e := @Scripted.start Scripted.all_up [] in
  let history :=
    @Reading.history_of Scripted.all_up
      (fst (@Reading.appends Scripted.all_up self Scenario.ten_messages e)) "alice" in
  (1 <= 5 /\ (∅ : gmap string (list Message)) = ∅)
  /\ history
     = Reading.last_n 5
         (@Reading.entries_for Scripted.all_up "alice" Scenario.ten_messages [])
  /\ Z.of_nat (length history) <= 5.
Proof.
  split; [split; [lia|reflexivity]|].
  apply (@history_bounded_for_positive_bound Scripted.all_up
           (@Scripted.agent Scripted.all_up (Scripted.local_only [] 500) 5 [])
           Scenario.ten_messages (@Scripted.start Scripted.all_up []) "alice");
    [simpl; lia | reflexivity].
Defined.

(** [clear_history] deletes the user's entry and leaves the world alone. *)
Lemma clear_history_run `{Outside} (self : Core.Agent) (user_id : string)
    (e : Env) :
  let (self', e') := Core.clear_history self user_id e in
  fst (Core._get_conversation self' user_id) = []
  /\ Core.conversations self' = delete user_id (Core.conversations self)
  /\ world e' = world e.
Proof.
  unfold Core.clear_history.
  destruct (Core.conversations self !! user_id) as [history|] eqn:Hu.
  - unfold bind, logger, ret; simpl.
    unfold Core._get_conversation; simpl. rewrite lookup_delete_eq. simpl. auto.
  - unfold ret. unfold Core._get_conversation. rewrite Hu. simpl.
    repeat split. symmetry. now apply delete_id.
Qed.

(** C8. [clear_history] followed by [_get_conversation] gives the empty
    list, from any store: the user's entry is deleted, the other entries
    and the world are untouched, and for a user without a conversation
    nothing at all changes. *)
Theorem clear_then_context_is_empty `{Outside} (self : Core.Agent) (user_id : string)
    (e : Env) :
  let (self', e') := Core.clear_history self user_id e in
  fst (Core._get_conversation self' user_id) = []
  /\ Core.conversations self' = delete user_id (Core.conversations self)
  /\ world e' = world e
  /\ (Core.conversations self !! user_id = None -> self' = self /\ e' = e).
Proof.
  unfold Core.clear_history.
  destruct (Core.conversations self !! user_id) as [history|] eqn:Hu.
  - unfold bind, logger, ret; simpl.
    unfold Core._get_conversation; simpl. rewrite lookup_delete_eq. simpl.
    repeat split; intros; discriminate.
  - unfold ret. unfold Core._get_conversation. rewrite Hu. simpl.
    repeat split; try reflexivity.
    symmetry. now apply delete_id.
Qed.

(** ** The orchestrator *)

Section AgentFacts.
Context `{Outside}.

Lemma get_conversation_appended self user_id role content timestamp :
  Core._get_conversation (Reading.appended self user_id role content timestamp) user_id
  = (Reading.history_of (Reading.appended self user_id role content timestamp) user_id,
     Reading.appended self user_id role content timestamp).
Proof.
  unfold Core._get_conversation, Reading.history_of, Reading.appended; simpl.
  now rewrite lookup_insert_eq.
Qed.

(** The notification loop awaits every handler in turn and only logs. *)
Lemma notify_loop (user_id message : string) (response : Response)
    (handlers : list Core.Handler) : forall e : Env,
  for_each (fun handler : Core.Handler =>
      let* outcome := outside (handler user_id message response) in
      match outcome with
      | Returned _ => ret tt
      | Raised x => logger ERROR ("Message handler error: " +:+ x)
      end) handlers e
  = (tt, {| world := Reading.hook_world handlers user_id message response (world e);
            logs := logs e
                    ++ Reading.hook_records handlers user_id message response (world e) |}).
Proof.
  induction handlers as [|handler rest IH]; intros e; simpl.
  - unfold ret. now rewrite app_nil_r, env_eta.
  - unfold bind at 1. unfold bind at 1. unfold outside.
    unfold Reading.hook_world; simpl fold_left.
    destruct (handler user_id message response (world e)) as [[[]|x] w] eqn:Hh; simpl snd.
    + unfold ret. rewrite IH. reflexivity.
    + rewrite logger_run, IH. unfold logged; simpl. now rewrite <- app_assoc.
Qed.

Lemma notify_handlers_run self user_id message response (e : Env) :
  Core.notify_handlers self user_id message response e
  = (tt, {| world := Reading.hook_world (Core._message_handlers self)
                       user_id message response (world e);
            logs := logs e ++ Reading.hook_records (Core._message_handlers self)
                                user_id message response (world e) |}).
Proof. apply notify_loop. Qed.

Lemma not_a_command message :
  Reading.is_command message = false ->
  String.eqb (PyStr.lower (PyStr.strip message)) "/clear" = false
  /\ String.eqb (PyStr.lower (PyStr.strip message)) "/status" = false
  /\ PyStr.startswith (PyStr.lower (PyStr.strip message)) "/model " = false.
Proof.
  unfold Reading.is_command; cbv zeta. intros Hc.
  apply orb_false_elim in Hc as [Hc Hm]. apply orb_false_elim in Hc as [Hc Hs]. auto.
Qed.

(** [process_message] on a message that is no command, step by step *)
Lemma process_message_normal self message user_id metadata (e : Env) :
  Reading.is_command message = false ->
  Core.process_message self message user_id metadata e
  = let e0 := logged e [Reading.processing_record user_id message] in
    let (timestamp, w1) := now_isoformat (world e0) in
    let self1 := Reading.appended self user_id "user" message timestamp in
    let (response, e2) :=
      Router.generate (Core.router self) message
        (Some (PyList.slice_to (-1) (Reading.history_of self1 user_id))) None
        {| world := w1; logs := logs e0 |} in
    let (self2, e3) :=
      (if success response
       then Core._add_to_history self1 user_id "assistant" (text response)
       else ret self1) e2 in
    let (_, e4) := Core.notify_handlers self2 user_id message response e3 in
    (response, self2, e4).
Proof.
  intros Hc. destruct (not_a_command _ Hc) as (Hclear & Hstatus & Hmodel).
  unfold Core.process_message. unfold bind at 1. rewrite logger_run.
  fold (Reading.processing_record user_id message).
  rewrite Hclear, Hstatus, Hmodel. cbv zeta.
  unfold bind at 1. rewrite add_to_history_run.
  destruct (now_isoformat _) as [timestamp w1].
  rewrite get_conversation_appended.
  unfold bind at 1. simpl Core.router.
  destruct (Router.generate _ _ _ _ _) as [response e2].
  destruct (success response); unfold bind at 1.
  - destruct (Core._add_to_history _ _ _ _ e2) as [self2 e3].
    unfold bind at 1.
    destruct (Core.notify_handlers _ _ _ _ _) as [[] e4]. reflexivity.
  - unfold ret at 1 3. unfold bind at 1.
    destruct (Core.notify_handlers _ _ _ _ _) as [[] e4]. reflexivity.
Qed.

End AgentFacts.

(** ** Slices of a history that was just extended *)

Lemma slice_to_minus_one_snoc {A} (l : list A) (x : A) : PyList.slice_to (-1) (l ++ [x]) = l.
Proof.
  unfold PyList.slice_to, PyList.clamp. rewrite length_app. simpl length.
  change (-1 <? 0) with true. cbv iota.
  replace (Z.to_nat _) with (length l) by lia.
  apply take_app_length.
Qed.

(** What the trimming statement leaves of an extended history ends with
    the new entry, or is empty; it is empty only under a negative bound. *)
Lemma trimmed_snoc (max_history : Z) (history : list Message) (entry : Message) :
  (exists kept, Reading.trimmed max_history (history ++ [entry]) = kept ++ [entry])
  \/ (max_history < 0 /\ Reading.trimmed max_history (history ++ [entry]) = []).
Proof.
  unfold Reading.trimmed.
  destruct (max_history <? Z.of_nat (length (history ++ [entry]))) eqn:Hlt;
    [|left; eauto].
  apply Z.ltb_lt in Hlt. rewrite length_app in Hlt; simpl in Hlt.
  unfold PyList.slice_from. set (k := PyList.clamp _ _).
  destruct (Nat.le_gt_cases k (length history)) as [Hk|Hk].
  - left. exists (drop k history). now rewrite drop_app_le.
  - right. split.
    + subst k. unfold PyList.clamp in Hk. rewrite length_app in Hk; simpl in Hk.
      destruct (- max_history <? 0) eqn:Hs; [apply Z.ltb_lt in Hs|apply Z.ltb_ge in Hs]; lia.
    + apply drop_ge. rewrite length_app; simpl. lia.
Qed.

(** ** Message lifecycle *)

(** C6. On the normal path the user entry is stored before [generate] is
    called: the call is made after the append, on the stored history
    without its last entry, which is the entry just appended. The returned
    response is the one of that call, and the history gains an assistant
    entry exactly when the response is a success; the other users'
    histories stay as they were. *)
Theorem user_entry_precedes_generation `{Outside} self message user_id metadata (e : Env) :
  Reading.is_command message = false ->
  let e0 := logged e [Reading.processing_record user_id message] in
  let (self1, e1) := Core._add_to_history self user_id "user" message e0 in
  let context := PyList.slice_to (-1) (Reading.history_of self1 user_id) in
  let (response, e2) := Router.generate (Core.router self1) message (Some context) None e1 in
  let user_entry := Core.new_message "user" message (fst (now_isoformat (world e))) in
  let assistant_entry :=
    Core.new_message "assistant" (text response) (fst (now_isoformat (world e2))) in
  let '(returned, self2, _) := Core.process_message self message user_id metadata e in
  returned = response
  /\ (Reading.history_of self1 user_id = context ++ [user_entry]
      \/ (Core.max_history self < 0 /\ Reading.history_of self1 user_id = []
          /\ context = []))
  /\ Reading.history_of self2 user_id
     = (if success response
        then Reading.trimmed (Core.max_history self)
               (Reading.history_of self1 user_id ++ [assistant_entry])
        else Reading.history_of self1 user_id)
  /\ (forall other, other <> user_id ->
      Reading.history_of self2 other = Reading.history_of self other).
Proof.
  intros Hc. cbv zeta. rewrite (process_message_normal _ _ _ _ _ Hc); cbv zeta.
  rewrite add_to_history_run. rewrite world_logged.
  destruct (now_isoformat (world e)) as [timestamp w1]. simpl fst.
  simpl Core.router.
  destruct (Router.generate _ _ _ _ _) as [response e2].
  assert (Huser :
    Reading.history_of (Reading.appended self user_id "user" message timestamp) user_id
    = PyList.slice_to (-1)
        (Reading.history_of (Reading.appended self user_id "user" message timestamp) user_id)
      ++ [Core.new_message "user" message timestamp]
    \/ (Core.max_history self < 0
        /\ Reading.history_of (Reading.appended self user_id "user" message timestamp) user_id
           = []
        /\ PyList.slice_to (-1)
             (Reading.history_of (Reading.appended self user_id "user" message timestamp)
                user_id) = [])).
  { rewrite history_of_appended.
    destruct (trimmed_snoc (Core.max_history self) (Reading.history_of self user_id)
                (Core.new_message "user" message timestamp)) as [[kept ->]|[Hneg ->]].
    - left. now rewrite slice_to_minus_one_snoc.
    - right. auto. }
  destruct (success response).
  - rewrite add_to_history_run.
    destruct (now_isoformat (world e2)) as [timestamp2 w3]. simpl fst.
    rewrite notify_handlers_run.
    split; [reflexivity|]. split; [exact Huser|]. split.
    + rewrite history_of_appended, max_history_appended. reflexivity.
    + intros other Hne.
      rewrite !history_of_appended_other by congruence. reflexivity.
  - unfold ret. rewrite notify_handlers_run.
    split; [reflexivity|]. split; [exact Huser|]. split; [reflexivity|].
    intros other Hne. rewrite history_of_appended_other by congruence. reflexivity.
Qed.

(** C7, as the code has it. After a generation exchange on the normal path
    every registered handler is awaited, in registration order, with
    [(user_id, message, response)]. The exchange itself runs as it does with
    no handler registered: the same response is returned and the same
    history is stored. A handler that raises changes the world as it did and
    adds one error record; the handlers after it still run. *)
Theorem hooks_run_after_generation_exchange `{Outside} self message user_id metadata
    (e : Env) :
  Reading.is_command message = false ->
  let handlers := Core._message_handlers self in
  let '(response, quiet, e3) :=
    Core.process_message (Reading.with_handlers self []) message user_id metadata e in
  Core.process_message self message user_id metadata e
  = (response,
     Reading.with_handlers quiet handlers,
     {| world := Reading.hook_world handlers user_id message response (world e3);
        logs := logs e3
                ++ Reading.hook_records handlers user_id message response (world e3) |}).
Proof.
  intros Hc. cbv zeta. rewrite !(process_message_normal _ _ _ _ _ Hc); cbv zeta.
  destruct (now_isoformat _) as [timestamp w1]. simpl Core.router.
  change (Reading.history_of
            (Reading.appended (Reading.with_handlers self []) user_id "user" message timestamp)
            user_id)
    with (Reading.history_of (Reading.appended self user_id "user" message timestamp) user_id).
  destruct (Router.generate _ _ _ _ _) as [response e2].
  destruct (success response).
  - rewrite !add_to_history_run.
    destruct (now_isoformat (world e2)) as [timestamp2 w3].
    rewrite !notify_handlers_run. simpl Core._message_handlers.
    simpl Reading.hook_records. simpl Reading.hook_world.
    rewrite app_nil_r. destruct self; reflexivity.
  - unfold ret. rewrite !notify_handlers_run. simpl Core._message_handlers.
    simpl Reading.hook_records. simpl Reading.hook_world.
    rewrite app_nil_r. destruct self; reflexivity.
Qed.

(** C9. A model command that names a known backend and has no further
    word returns the system response asking for the message; the agent,
    and so every history, is unchanged, and the world is untouched: only
    the processing record is logged. *)
Theorem model_command_without_message `{Outside} self message user_id metadata (e : Env)
    (command name : string) :
  PyStr.startswith (PyStr.lower (PyStr.strip message)) "/model " = true ->
  PyStr.split (PyStr.strip message) = [command; name] ->
  PyStr.lower name = "ollama" \/ PyStr.lower name = "gemini" ->
  Core.process_message self message user_id metadata e
  = ({| text := "Model set to " +:+ PyStr.lower name +:+ ". Now send your message.";
        model := "system"; model_version := None;
        success := true; fallback := None; error := None |},
     self,
     {| world := world e;
        logs := logs e ++ [Reading.processing_record user_id message] |}).
Proof.
  intros Hmodel Hparts Hname.
  assert (Hclear : String.eqb (PyStr.lower (PyStr.strip message)) "/clear" = false).
  { destruct (String.eqb_spec (PyStr.lower (PyStr.strip message)) "/clear") as [Heq|];
      [|reflexivity]. rewrite Heq in Hmodel. discriminate. }
  assert (Hstatus : String.eqb (PyStr.lower (PyStr.strip message)) "/status" = false).
  { destruct (String.eqb_spec (PyStr.lower (PyStr.strip message)) "/status") as [Heq|];
      [|reflexivity]. rewrite Heq in Hmodel. discriminate. }
  unfold Core.process_message. unfold bind at 1. rewrite logger_run.
  rewrite Hclear, Hstatus, Hmodel.
  unfold Core._handle_model_command. rewrite Hparts. cbv zeta.
  change (length [command; name]) with 2%nat.
  change ([command; name] !! 1%nat) with (Some name).
  change (Z.of_nat 2 <? 2) with false. change (2 <? Z.of_nat 2) with false. cbv iota.
  change (default EmptyString (Some name)) with name.
  assert (Hin : negb (String.eqb (PyStr.lower name) "ollama"
                      || String.eqb (PyStr.lower name) "gemini") = false).
  { destruct Hname as [-> | ->]; reflexivity. }
  rewrite Hin. simpl. reflexivity.
Qed.

(** The scenario of the specification: [/model gemini] alone. *)
Lemma model_command_without_message_witness :
  let self := @Scripted.agent Scripted.all_up (Scripted.both_adapters [] 500) 20 [] in
  @Core.process_message Scripted.all_up self "/model gemini" "alice" None
     (@Scripted.start Scripted.all_up [])
  = ({| text := "Model set to gemini. Now send your message.";
        model := "system"; model_version := None;
        success := true; fallback := None; error := None |},
     self,
     @Build_Env Scripted.all_up []
       [(INFO, "Processing message from alice: /model gemini...")]).
Proof.
  exact (@model_command_without_message Scripted.all_up
           (@Scripted.agent Scripted.all_up (Scripted.both_adapters [] 500) 20 [])
           "/model gemini" "alice" None (@Scripted.start Scripted.all_up [])
           "/model" "gemini" eq_refl eq_refl (or_intror eq_refl)).
Defined.

(** A run of C6 on an agent that already holds one entry for the user. *)
Lemma user_entry_precedes_generation_witness :
  let self := @Reading.appended Scripted.all_up Scripted.watched
                "alice" "assistant" "earlier answer" Scripted.midnight in
  let earlier := Core.new_message "assistant" "earlier answer" Scripted.midnight in
  let user_entry := Core.new_message "user" "hello" Scripted.midnight in
  let assistant_entry := Core.new_message "assistant" "local answer" Scripted.midnight in
  Reading.is_command "hello" = false
  /\ let '(returned, self2, e') :=
       @Core.process_message Scripted.all_up self "hello" "alice" None
         (@Scripted.start Scripted.all_up []) in
     returned = {| text := "local answer"; model := "ollama";
                   model_version := Some "llama3.2";
                   success := true; fallback := None; error := None |}
     /\ ([earlier; user_entry] = [earlier] ++ [user_entry]
         \/ (20 < 0 /\ [earlier; user_entry] = [] /\ [earlier] = []))
     /\ Reading.history_of self2 "alice" = [earlier; user_entry; assistant_entry]
     /\ (forall other, other <> "alice" ->
         Reading.history_of self2 other = Reading.history_of self other).
Proof.
  split; [reflexivity|].
  exact (@user_entry_precedes_generation Scripted.all_up
           (@Reading.appended Scripted.all_up Scripted.watched
              "alice" "assistant" "earlier answer" Scripted.midnight)
           "hello" "alice" None (@Scripted.start Scripted.all_up []) eq_refl).
Defined.

(** A run of C7 as amended: of the two handlers the first raises. Both are
    awaited, after the second clock reading of the exchange; the response
    and the stored history are those of the agent without handlers; the
    failure leaves one error record. *)
Lemma hooks_run_after_generation_exchange_witness :
  let response := {| text := "local answer"; model := "ollama";
                     model_version := Some "llama3.2";
                     success := true; fallback := None; error := None |} in
  let quiet :=
    @Reading.appended Scripted.all_up
      (@Reading.appended Scripted.all_up
         (@Reading.with_handlers Scripted.all_up Scripted.watched [])
         "alice" "user" "hello" Scripted.midnight)
      "alice" "assistant" "local answer" Scripted.midnight in
  Reading.is_command "hello" = false
  /\ @Core.process_message Scripted.all_up Scripted.watched "hello" "alice" None
       (@Scripted.start Scripted.all_up [])
     = (response,
        @Reading.with_handlers Scripted.all_up quiet Scripted.two_handlers,
        @Build_Env Scripted.all_up
          [Scripted.ReadClock; Scripted.CallOllama "hello" (Some []); Scripted.ReadClock;
           Scripted.Notified "first" "alice" "hello" response;
           Scripted.Notified "second" "alice" "hello" response]
          [(INFO, "Processing message from alice: hello...");
           (DEBUG, "Complexity score: 1, threshold: 500");
           (DEBUG, "Using Ollama");
           (ERROR, "Message handler error: boom")]).
Proof.
  split; [reflexivity|].
  exact (@hooks_run_after_generation_exchange Scripted.all_up Scripted.watched
           "hello" "alice" None (@Scripted.start Scripted.all_up []) eq_refl).
Defined.

(** C7 as stated fails on a command exchange: [/clear] completes with its
    system response while the registered handlers are not awaited. *)
Lemma clear_command_awaits_no_handler :
  let '(response, self', e') :=
    @Core.process_message Scripted.all_up Scripted.watched "/clear" "alice" None
      (@Scripted.start Scripted.all_up []) in
  response = {| text := "Conversation history cleared."; model := "system";
                model_version := None;
                success := true; fallback := None; error := None |}
  /\ Core._message_handlers self' = Scripted.two_handlers
  /\ ~ Scripted.notified "first" "alice" "/clear" (world e')
  /\ ~ Scripted.notified "second" "alice" "/clear" (world e').
Proof.
  vm_compute. repeat split; intros [response []].
Qed.

(** The status command and the model command, also when it generates,
    return without awaiting the handlers either. *)
Example status_command_awaits_no_handler :
  world (snd (@Core.process_message Scripted.all_up Scripted.watched "/status" "alice" None
                (@Scripted.start Scripted.all_up []))) = [].
Proof. reflexivity. Qed.

Example model_command_generation_awaits_no_handler :
  let '(response, self', e') :=
    @Core.process_message Scripted.all_up Scripted.watched "/model ollama hello" "alice"
      None (@Scripted.start Scripted.all_up []) in
  (success response, model response) = (true, "ollama")
  /\ world e' = [Scripted.ReadClock; Scripted.CallOllama "hello" (Some []);
                 Scripted.ReadClock]
  /\ Scripted.summary (Reading.history_of self' "alice")
     = [(Some "user", Some "hello"); (Some "assistant", Some "local answer")].
Proof. vm_compute. repeat split. Qed.

(** ** Concrete runs *)

Example split_on_whitespace_runs :
  PyStr.split "  a b	c  " = ["a"; "b"; "c"].
Proof. reflexivity. Qed.

Example strip_and_lower_command :
  PyStr.lower (PyStr.strip "  /Model GEMINI x ") = "/model gemini x".
Proof. reflexivity. Qed.

Example default_keywords :
  Config.gemini_keywords_list Config.defaults
  = ["analyze"; "generate code"; "complex"; "explain in detail"; "research"].
Proof. reflexivity. Qed.

Example slices_of_three :
  (PyList.slice_from (-2) [1; 2; 3], PyList.slice_from (-0) [1; 2; 3],
   PyList.slice_from 2 [1; 2; 3], PyList.slice_from (-5) [1; 2; 3],
   PyList.slice_to (-1) [1; 2; 3], PyList.slice_to (-1) (@nil Z))
  = ([2; 3], [1; 2; 3], [3], [1; 2; 3], [1; 2], []).
Proof. reflexivity. Qed.

Example why_pattern_needs_a_word_and_a_question_mark :
  map (Re.search (Re.WordBoundary :: Re.lit "why"
                    ++ [Re.WordBoundary; Re.AnyStar; Re.Chr "?"]))
      ["why is that?"; "whyever?"; "so why"; "a why b ?"]
  = [true; false; false; true].
Proof. reflexivity. Qed.

(** The scenarios of the specification: [hi] scores 1 and goes to local;
    a message with two trigger keywords passes the default threshold and
    goes to cloud when cloud is configured. *)
Example short_greeting_stays_local :
  let self := Scripted.both_adapters [] 500 in
  let e := @Scripted.start Scripted.all_up [] in
  fst (@Router._calculate_complexity Scripted.all_up self "hi" (Some []) e) = 1
  /\ model (fst (@Router.generate Scripted.all_up self "hi" (Some []) None e)) = "ollama".
Proof. split; reflexivity. Qed.

Example two_keywords_reach_cloud :
  let self := fst (@Router.__init__ Scripted.all_up (@Scripted.start Scripted.all_up [])) in
  let self := {| Router.ollama := Router.ollama self;
                 Router.gemini := Some Router.GeminiClient_obj;
                 Router.trigger_keywords := Router.trigger_keywords self;
                 Router.complexity_threshold := Router.complexity_threshold self |} in
  let e := @Scripted.start Scripted.all_up [] in
  let message := "Please analyze and explain in detail" in
  fst (@Router._calculate_complexity Scripted.all_up self message (Some []) e) = 506
  /\ model (fst (@Router.generate Scripted.all_up self message (Some []) None e)) = "gemini".
Proof. split; reflexivity. Qed.

(** ** Further properties of the specification *)

(** The score is never below the word count of the message: the base term
    is never subtracted. *)
Theorem score_at_least_word_count `{Outside} self message context (e : Env) :
  Spec.word_count message <= fst (Router._calculate_complexity self message context e).
Proof.
  rewrite calculate_complexity_run. simpl fst. unfold Reading.score.
  pose proof (count_nonneg (fun keyword => PyStr.contains keyword (PyStr.lower message))
                (Router.trigger_keywords self)).
  pose proof (count_nonneg (Spec.pattern_matches message) Router.complex_patterns).
  pose proof (context_word_count_nonneg (default [] context)).
  assert (0 <= Spec.context_word_count (default [] context) / 10)
    by (apply Z.div_pos; lia).
  destruct (Spec.has_code message); lia.
Qed.

(** The clear command: the user's conversation is removed, the response is
    the system response, and the world is untouched, so that no provider,
    clock or handler was called. *)
Theorem clear_command_exchange `{Outside} self message user_id metadata (e : Env) :
  PyStr.lower (PyStr.strip message) = "/clear" ->
  let '(response, self', e') := Core.process_message self message user_id metadata e in
  response = {| text := "Conversation history cleared."; model := "system";
                model_version := None;
                success := true; fallback := None; error := None |}
  /\ Core.conversations self' = delete user_id (Core.conversations self)
  /\ fst (Core._get_conversation self' user_id) = []
  /\ world e' = world e.
Proof.
  intros Hclear. unfold Core.process_message. unfold bind at 1. rewrite logger_run.
  rewrite Hclear. change (String.eqb "/clear" "/clear") with true. cbv iota.
  unfold bind at 1.
  pose proof (clear_history_run self user_id
                (logged e [Reading.processing_record user_id message])) as Hrun.
  destruct (Core.clear_history self user_id _) as [self' e'].
  destruct Hrun as (Hctx & Hdel & Hworld). unfold ret. auto.
Qed.

(** The scenario of the specification: [/clear] for a user with five
    entries. *)
Lemma clear_command_exchange_witness :
  length (@Reading.history_of Scripted.all_up Scenario.five_entries "alice") = 5%nat
  /\ PyStr.lower (PyStr.strip " /Clear ") = "/clear"
  /\ let '(response, self', e') :=
       @Core.process_message Scripted.all_up Scenario.five_entries " /Clear " "alice" None
         (@Scripted.start Scripted.all_up []) in
     response = {| text := "Conversation history cleared."; model := "system";
                   model_version := None;
                   success := true; fallback := None; error := None |}
     /\ Core.conversations self' = delete "alice" (Core.conversations Scenario.five_entries)
     /\ fst (Core._get_conversation self' "alice") = []
     /\ world e' = [].
Proof.
  split; [reflexivity|]. split; [reflexivity|].
  exact (@clear_command_exchange Scripted.all_up Scenario.five_entries " /Clear " "alice"
           None (@Scripted.start Scripted.all_up []) eq_refl).
Defined.

(** * Further properties of the code *)

(** ** The router *)

Lemma count_pos {A} (p : A -> bool) (x : A) (l : list A) :
  In x l -> p x = true -> 1 <= Spec.count p l.
Proof.
  intros Hin Hp. induction l as [|y l IH]; [destruct Hin|].
  rewrite count_cons. pose proof (count_nonneg p l).
  destruct Hin as [->|Hin].
  - rewrite Hp. lia.
  - specialize (IH Hin). destruct (p y); lia.
Qed.

Lemma contains_empty (s : string) : PyStr.contains EmptyString s = true.
Proof. destruct s; reflexivity. Qed.

(** Every [dict] that [generate] returns has one of three key patterns:
    an answer, a fallback answer, a failure. The model is one of the two
    backends; [error] is set exactly on failure and [model_version] exactly
    on success; a failure carries the fixed apology as text; [fallback] is
    set only on a successful answer of the local backend. *)
Theorem generate_response_shape `{Outside} self message context force_model (e : Env) :
  Shape.of_generate (fst (Router.generate self message context force_model e)).
Proof.
  unfold Shape.of_generate.
  destruct (Reading.chosen self message context force_model) eqn:Hb.
  - rewrite (generate_local _ _ _ _ _ Hb); cbv zeta.
    destruct (Router.call_ollama _ _ _ _) as [[response|x] e2]; simpl;
      repeat split; auto; try discriminate; try (intros [? ?]; discriminate); eauto.
  - rewrite (generate_cloud _ _ _ _ _ Hb); cbv zeta.
    destruct (gemini_generate _ _ _) as [[response|x] w2].
    + simpl; repeat split; auto; try discriminate; eauto.
    + destruct (Router.truthy (Router.ollama self)).
      * destruct (Router.call_ollama _ _ _ _) as [[response|y] e4]; simpl;
          repeat split; auto; try discriminate; try (intros [? ?]; discriminate); eauto.
      * simpl; repeat split; auto; try discriminate; try (intros [? ?]; discriminate).
Qed.

(** What a response says about the provider calls that were made. A
    success without fallback cost one call, to the adapter the choice
    selected; a fallback response cost one cloud call followed by one local
    call. In both cases the only records logged after the choice are those
    of the failure that led to the fallback. *)
Theorem provider_calls_by_outcome `{Outside} self message context force_model (e : Env) :
  let use_gemini := fst (Router.choose_model self message context force_model e) in
  let (response, e') := Router.generate self message context force_model e in
  (success response = true -> fallback response = None ->
   world e' = snd ((if use_gemini then gemini_generate else ollama_generate)
                     message context (world e)))
  /\ (fallback response = Some true ->
      use_gemini = true
      /\ world e' = snd (ollama_generate message context
                           (snd (gemini_generate message context (world e))))).
Proof.
  cbv zeta. rewrite choose_model_run.
  destruct (Reading.chosen self message context force_model) eqn:Hb;
    cbn [fst Spec.is_cloud].
  - rewrite (generate_local _ _ _ _ _ Hb); cbv zeta.
    rewrite call_ollama_world, world_logged.
    destruct (Router.ollama self).
    + destruct (ollama_generate message context (world e)) as [[response|x] w];
        simpl; split; intros; try discriminate; reflexivity.
    + simpl; split; intros; discriminate.
  - rewrite (generate_cloud _ _ _ _ _ Hb); cbv zeta. rewrite world_logged.
    destruct (gemini_generate message context (world e)) as [[response|x] w2].
    + simpl; split; intros; try discriminate; reflexivity.
    + destruct (Router.truthy (Router.ollama self)) eqn:Ho.
      * rewrite call_ollama_world. destruct (Router.ollama self); [|discriminate].
        simpl world. cbn [snd].
        destruct (ollama_generate message context w2) as [[response|y] w3];
          simpl; split; intros; try discriminate; auto.
      * simpl; split; intros; discriminate.
Qed.

Lemma provider_calls_by_outcome_witness :
  world (snd (@Router.generate Scripted.all_up (Scripted.both_adapters [] 500) "hi" None
                None (@Scripted.start Scripted.all_up [])))
  = [Scripted.CallOllama "hi" None].
Proof.
  exact (proj1 (@provider_calls_by_outcome Scripted.all_up (Scripted.both_adapters [] 500)
                  "hi" None None (@Scripted.start Scripted.all_up []))
           eq_refl eq_refl).
Defined.

(** A blank piece of the keyword setting, as left by an empty setting or a
    trailing pipe, becomes the empty keyword, which is in every message:
    the router built from such settings adds 200 to every score. *)
Theorem blank_keyword_matches_every_message `{Outside} (e0 : Env) (piece : string)
    message context (e : Env) :
  In piece (PyStr.split_on "|" (Config.gemini_trigger_keywords settings)) ->
  PyStr.strip piece = EmptyString ->
  Spec.word_count message + 200
  <= fst (Router._calculate_complexity (fst (Router.__init__ e0)) message context e).
Proof.
  intros Hin Hblank. rewrite calculate_complexity_run. simpl fst.
  unfold Reading.score. simpl Router.trigger_keywords.
  assert (Hk : In EmptyString (Config.gemini_keywords_list settings)).
  { unfold Config.gemini_keywords_list.
    apply (in_map (fun k => PyStr.lower (PyStr.strip k))) in Hin.
    rewrite Hblank in Hin. exact Hin. }
  pose proof (count_pos (fun keyword => PyStr.contains keyword (PyStr.lower message))
                EmptyString _ Hk (contains_empty _)).
  pose proof (count_nonneg (Spec.pattern_matches message) Router.complex_patterns).
  pose proof (context_word_count_nonneg (default [] context)).
  assert (0 <= Spec.context_word_count (default [] context) / 10)
    by (apply Z.div_pos; lia).
  destruct (Spec.has_code message); lia.
Qed.

(** The keyword string [analyze|]: the message [hi] scores 1 + 200. *)
Lemma blank_keyword_matches_every_message_witness :
  (In EmptyString (PyStr.split_on "|" "analyze|") /\ PyStr.strip EmptyString = EmptyString)
  /\ Spec.word_count "hi" + 200
     <= fst (@Router._calculate_complexity Cases.trailing_pipe_world
               (fst (@Router.__init__ Cases.trailing_pipe_world
                       (@Scripted.start Cases.trailing_pipe_world [])))
               "hi" None (@Scripted.start Cases.trailing_pipe_world [])).
Proof.
  split; [split; [right; left; reflexivity | reflexivity]|].
  apply (@blank_keyword_matches_every_message Cases.trailing_pipe_world
           (@Scripted.start Cases.trailing_pipe_world []) EmptyString "hi" None
           (@Scripted.start Cases.trailing_pipe_world []));
    [right; left; reflexivity | reflexivity].
Defined.

(** ** Splitting and joining *)

Lemma append_nil_r (s : string) : s +:+ EmptyString = s.
Proof.
  induction s as [|c s IH]; [reflexivity|].
  change (String c (s +:+ EmptyString) = String c s). now rewrite IH.
Qed.

Lemma append_cons (c : ascii) (a b : string) : String c a +:+ b = String c (a +:+ b).
Proof. reflexivity. Qed.

Lemma append_assoc (a b c : string) : (a +:+ b) +:+ c = a +:+ (b +:+ c).
Proof.
  induction a as [|x a IH]; [reflexivity|].
  rewrite !append_cons. now rewrite IH.
Qed.

Lemma free_of_cons (sep c : ascii) (r : string) :
  ConfigLists.free_of sep (String c r) = true ->
  Ascii.eqb c sep = false /\ ConfigLists.free_of sep r = true.
Proof.
  unfold ConfigLists.free_of. simpl. intros Hf.
  apply negb_true_iff in Hf. apply orb_false_elim in Hf as [Hp Hc].
  split; [|now rewrite Hc].
  destruct (Ascii.eqb_spec c sep) as [->|]; [|reflexivity].
  destruct (ascii_dec sep sep) as [_|Hne]; [|now destruct Hne].
  destruct r; discriminate.
Qed.

Lemma split_on_aux_free (sep : ascii) (p : string) : forall rest acc,
  ConfigLists.free_of sep p = true ->
  PyStr.split_on_aux sep (p +:+ rest) acc = PyStr.split_on_aux sep rest (acc +:+ p).
Proof.
  induction p as [|c p IH]; intros rest acc Hf.
  - now rewrite append_nil_r.
  - apply free_of_cons in Hf as [Hc Hf]. rewrite append_cons. simpl PyStr.split_on_aux.
    rewrite Hc, (IH _ _ Hf), append_assoc. reflexivity.
Qed.

Lemma split_on_free (sep : ascii) (p : string) :
  ConfigLists.free_of sep p = true -> PyStr.split_on sep p = [p].
Proof.
  intros Hf. unfold PyStr.split_on.
  rewrite <- (append_nil_r p) at 1. rewrite (split_on_aux_free _ _ _ _ Hf). reflexivity.
Qed.

(** Joining pieces that are free of the separator and splitting again
    gives the pieces back. *)
Lemma split_on_join (sep : ascii) (l : list string) : forall x,
  Forall (fun p => ConfigLists.free_of sep p = true) (x :: l) ->
  PyStr.split_on sep (PyStr.join (String sep EmptyString) (x :: l)) = x :: l.
Proof.
  induction l as [|y l IH]; intros x Hf.
  - apply split_on_free. now inversion Hf.
  - inversion Hf as [|? ? Hx Hl]; subst.
    change (PyStr.join (String sep EmptyString) (x :: y :: l))
      with (x +:+ String sep (PyStr.join (String sep EmptyString) (y :: l))).
    unfold PyStr.split_on. rewrite (split_on_aux_free _ _ _ _ Hx). simpl.
    rewrite Ascii.eqb_refl. f_equal. apply (IH y Hl).
Qed.

(** The keyword setting round trip: a non-empty list of keywords that are
    stripped, lower-case and free of the pipe is read back, as it is, from
    the string that joins them with pipes. *)
Theorem keywords_round_trip (s : Config.Settings) (keywords : list string) :
  keywords <> [] ->
  Forall (fun k => PyStr.lower (PyStr.strip k) = k
                   /\ ConfigLists.free_of "|" k = true) keywords ->
  Config.gemini_trigger_keywords s = PyStr.join "|" keywords ->
  Config.gemini_keywords_list s = keywords.
Proof.
  intros Hne Hk Hs. unfold Config.gemini_keywords_list. rewrite Hs.
  destruct keywords as [|x l]; [congruence|].
  rewrite split_on_join.
  - clear Hne Hs. induction Hk as [|k r [Hk _] _ IH]; simpl; [reflexivity|].
    now rewrite Hk, IH.
  - eapply Forall_impl; [exact Hk|]. now intros k [_ Hf].
Qed.

Lemma keywords_round_trip_witness :
  let s := Config.defaults in
  let keywords := ["analyze"; "generate code"; "complex"; "explain in detail"; "research"] in
  (keywords <> []
   /\ Forall (fun k => PyStr.lower (PyStr.strip k) = k
                       /\ ConfigLists.free_of "|" k = true) keywords
   /\ Config.gemini_trigger_keywords s = PyStr.join "|" keywords)
  /\ Config.gemini_keywords_list s = keywords.
Proof.
  assert (Hk : Forall (fun k => PyStr.lower (PyStr.strip k) = k
                                /\ ConfigLists.free_of "|" k = true)
                 ["analyze"; "generate code"; "complex"; "explain in detail"; "research"])
    by (repeat constructor).
  split; [split; [discriminate | split; [exact Hk | reflexivity]]|].
  apply (keywords_round_trip Config.defaults); [discriminate | exact Hk | reflexivity].
Defined.

(** The allowed numbers round trip, with its guard: numbers that are
    stripped and free of the pipe are read back from the string that joins
    them, provided that string is not empty; the empty setting gives no
    number at all, not one empty number. *)
Theorem allowed_numbers_round_trip (numbers : list string) :
  Forall (fun n => PyStr.strip n = n /\ ConfigLists.free_of "|" n = true) numbers ->
  ConfigLists.allowed_numbers_list (PyStr.join "|" numbers)
  = if String.eqb (PyStr.join "|" numbers) EmptyString then [] else numbers.
Proof.
  intros Hn. unfold ConfigLists.allowed_numbers_list.
  destruct (String.eqb (PyStr.join "|" numbers) EmptyString) eqn:He; [reflexivity|].
  destruct numbers as [|x l]; [discriminate|].
  rewrite split_on_join.
  - clear He. induction Hn as [|n r [Hs _] _ IH]; simpl; [reflexivity|].
    now rewrite Hs, IH.
  - eapply Forall_impl; [exact Hn|]. now intros n [_ Hf].
Qed.

Lemma allowed_numbers_round_trip_witness :
  Forall (fun n => PyStr.strip n = n /\ ConfigLists.free_of "|" n = true)
    ["4915112345678"; "4917187654321"]
  /\ ConfigLists.allowed_numbers_list "4915112345678|4917187654321"
     = ["4915112345678"; "4917187654321"].
Proof.
  assert (Hn : Forall (fun n => PyStr.strip n = n /\ ConfigLists.free_of "|" n = true)
                 ["4915112345678"; "4917187654321"]) by (repeat constructor).
  split; [exact Hn|].
  exact (allowed_numbers_round_trip _ Hn).
Defined.

(** ** Words *)

Lemma chars_app (a b : string) :
  list_ascii_of_string (a +:+ b) = list_ascii_of_string a ++ list_ascii_of_string b.
Proof.
  induction a as [|c a IH]; [reflexivity|].
  rewrite append_cons. simpl. now rewrite IH.
Qed.

Lemma spaceless_app (a b : string) :
  Shape.spaceless (a +:+ b) = Shape.spaceless a && Shape.spaceless b.
Proof. unfold Shape.spaceless. now rewrite chars_app, forallb_app. Qed.

Lemma split_aux_word (w : string) : forall rest acc,
  Shape.spaceless w = true ->
  PyStr.split_aux (w +:+ rest) acc = PyStr.split_aux rest (acc +:+ w).
Proof.
  induction w as [|c w IH]; intros rest acc Hw.
  - now rewrite append_nil_r.
  - unfold Shape.spaceless in Hw. simpl in Hw. apply andb_true_iff in Hw as [Hc Hw].
    apply negb_true_iff in Hc.
    rewrite append_cons. simpl PyStr.split_aux. rewrite Hc, (IH _ _ Hw), append_assoc.
    reflexivity.
Qed.

Lemma eqb_empty_word (w : string) : w <> EmptyString -> String.eqb w EmptyString = false.
Proof. intros Hw. now apply String.eqb_neq. Qed.

(** Words joined by single spaces split into the same words. *)
Lemma split_join_words (ws : list string) :
  Forall Shape.word ws -> PyStr.split (PyStr.join " " ws) = ws.
Proof.
  induction 1 as [|w ws [Hne Hw] Hws IH]; [reflexivity|].
  destruct ws as [|w2 ws].
  - unfold PyStr.split. simpl PyStr.join.
    rewrite <- (append_nil_r w) at 1. rewrite (split_aux_word _ _ _ Hw). simpl.
    now rewrite eqb_empty_word.
  - change (PyStr.join " " (w :: w2 :: ws))
      with (w +:+ String " " (PyStr.join " " (w2 :: ws))).
    unfold PyStr.split. rewrite (split_aux_word _ _ _ Hw).
    simpl. rewrite eqb_empty_word by exact Hne. f_equal. exact IH.
Qed.

(** What [split] returns are words: non-empty and free of white space. *)
Lemma split_aux_words (s : string) : forall acc,
  Shape.spaceless acc = true -> Forall Shape.word (PyStr.split_aux s acc).
Proof.
  induction s as [|c s IH]; intros acc Hacc; simpl.
  - destruct (String.eqb_spec acc EmptyString); constructor; [|constructor].
    split; assumption.
  - destruct (PyStr.isspace c) eqn:Hc.
    + destruct (String.eqb_spec acc EmptyString).
      * now apply IH.
      * constructor; [split; assumption | now apply IH].
    + apply IH. rewrite spaceless_app, Hacc. unfold Shape.spaceless; simpl.
      now rewrite Hc.
Qed.

Lemma split_words (s : string) : Forall Shape.word (PyStr.split s).
Proof. now apply split_aux_words. Qed.

Lemma drop_words (n : nat) (ws : list string) :
  Forall Shape.word ws -> Forall Shape.word (drop n ws).
Proof. intros Hw. now apply Forall_drop. Qed.

(** Splitting a string, joining the words with single spaces and splitting
    again gives the same words: [" ".join(s.split())] keeps the words of
    [s] and forgets how they were spaced. *)
Lemma split_join_split (s : string) :
  PyStr.split (PyStr.join " " (PyStr.split s)) = PyStr.split s.
Proof. apply split_join_words, split_words. Qed.

(** ** The paths of [process_message] *)

Section PathFacts.
Context `{Outside}.

(** The model field of what [generate] returns is a backend name. *)
Lemma generate_model_name self message context force_model (e : Env) :
  model (fst (Router.generate self message context force_model e)) = "ollama"
  \/ model (fst (Router.generate self message context force_model e)) = "gemini".
Proof.
  destruct (Reading.chosen self message context force_model) eqn:Hb.
  - rewrite (generate_local _ _ _ _ _ Hb); cbv zeta.
    destruct (Router.call_ollama _ _ _ _) as [[response|x] e2]; simpl; auto.
  - rewrite (generate_cloud _ _ _ _ _ Hb); cbv zeta.
    destruct (gemini_generate _ _ _) as [[response|x] w2]; [simpl; auto|].
    destruct (Router.truthy (Router.ollama self)); [|simpl; auto].
    destruct (Router.call_ollama _ _ _ _) as [[response|y] e4]; simpl; auto.
Qed.

Lemma exchange_response self user_id message force_model (e : Env) :
  model (fst (fst (Steps.exchange self user_id message force_model e))) = "ollama"
  \/ model (fst (fst (Steps.exchange self user_id message force_model e))) = "gemini".
Proof.
  unfold Steps.exchange. destruct (now_isoformat (world e)) as [timestamp w1].
  match goal with |- context [Router.generate ?r ?m ?c ?f ?e1] =>
    pose proof (generate_model_name r m c f e1) as Hm;
    destruct (Router.generate r m c f e1) as [response e2] end.
  simpl in Hm. destruct (success response).
  - destruct (Core._add_to_history _ _ _ _ e2) as [self2 e3]. exact Hm.
  - exact Hm.
Qed.

(** The tail of both generation paths is the exchange. *)
Lemma exchange_run self user_id message force_model (e : Env) :
  (let* self1 := Core._add_to_history self user_id "user" message in
   let (history, self1) := Core._get_conversation self1 user_id in
   let context := PyList.slice_to (-1) history in
   let* response :=
     Router.generate (Core.router self1) message (Some context) force_model in
   let* self2 :=
     if success response
     then Core._add_to_history self1 user_id "assistant" (text response)
     else ret self1 in
   ret (response, self2)) e
  = Steps.exchange self user_id message force_model e.
Proof.
  unfold Steps.exchange. unfold bind at 1. rewrite add_to_history_run.
  destruct (now_isoformat (world e)) as [timestamp w1].
  rewrite get_conversation_appended. cbv zeta.
  unfold bind at 1. simpl Core.router.
  destruct (Router.generate _ _ _ _ _) as [response e2].
  destruct (success response); unfold bind at 1.
  - destruct (Core._add_to_history _ _ _ _ e2) as [self2 e3]. reflexivity.
  - reflexivity.
Qed.

(** The exchange does not read the handlers. *)
Lemma exchange_with_handlers self handlers user_id message force_model (e : Env) :
  Steps.exchange (Reading.with_handlers self handlers) user_id message force_model e
  = let '(response, self', e') := Steps.exchange self user_id message force_model e in
    (response, Reading.with_handlers self' handlers, e').
Proof.
  unfold Steps.exchange. destruct (now_isoformat (world e)) as [timestamp w1].
  simpl Core.router.
  change (Reading.history_of
            (Reading.appended (Reading.with_handlers self handlers) user_id "user" message
               timestamp) user_id)
    with (Reading.history_of (Reading.appended self user_id "user" message timestamp)
            user_id).
  destruct (Router.generate _ _ _ _ _) as [response e2].
  destruct (success response).
  - rewrite !add_to_history_run.
    destruct (now_isoformat (world e2)) as [timestamp2 w3]. reflexivity.
  - reflexivity.
Qed.

(** [_handle_model_command] either answers with a system response and
    touches nothing, or performs a forced exchange. *)
Lemma handle_model_command_cases self message user_id (e : Env) :
  (exists t, Core._handle_model_command self message user_id e
             = (Core.system_response t, self, e))
  \/ (exists actual name,
        Core._handle_model_command self message user_id e
        = Steps.exchange self user_id actual (Some name) e).
Proof.
  unfold Core._handle_model_command. cbv zeta.
  destruct (Z.of_nat (length (PyStr.split (PyStr.strip message))) <? 2);
    [left; eexists; reflexivity|].
  destruct (negb _); [left; eexists; reflexivity|].
  destruct (String.eqb _ EmptyString); [left; eexists; reflexivity|].
  right. do 2 eexists. apply exchange_run.
Qed.

Lemma handle_model_command_with_handlers self handlers message user_id (e : Env) :
  Core._handle_model_command (Reading.with_handlers self handlers) message user_id e
  = let '(response, self', e') := Core._handle_model_command self message user_id e in
    (response, Reading.with_handlers self' handlers, e').
Proof.
  unfold Core._handle_model_command. cbv zeta.
  destruct (Z.of_nat (length (PyStr.split (PyStr.strip message))) <? 2);
    [reflexivity|].
  destruct (negb _); [reflexivity|].
  destruct (String.eqb _ EmptyString); [reflexivity|].
  rewrite !exchange_run. apply exchange_with_handlers.
Qed.

Lemma status_command_run self (e : Env) :
  exists t, Core._handle_status_command self e = (Core.system_response t, e).
Proof. eexists. reflexivity. Qed.

(** The normal path is the exchange followed by the notification loop. *)
Lemma process_message_exchange self message user_id metadata (e : Env) :
  Reading.is_command message = false ->
  Core.process_message self message user_id metadata e
  = let '(response, self', e3) :=
      Steps.exchange self user_id message None
        (logged e [Reading.processing_record user_id message]) in
    (response, self', snd (Core.notify_handlers self' user_id message response e3)).
Proof.
  intros Hc. destruct (not_a_command _ Hc) as (Hclear & Hstatus & Hmodel).
  unfold Core.process_message. unfold bind at 1. rewrite logger_run.
  fold (Reading.processing_record user_id message).
  rewrite Hclear, Hstatus, Hmodel.
  pose proof (exchange_run self user_id message None
                (logged e [Reading.processing_record user_id message])) as Hx.
  cbv zeta in Hx.
  unfold bind at 1. unfold bind at 1 in Hx.
  destruct (Core._add_to_history self user_id "user" message _) as [self1 e1].
  destruct (Core._get_conversation self1 user_id) as [history self1'].
  cbv zeta. unfold bind at 1. unfold bind at 1 in Hx.
  destruct (Router.generate _ _ _ _ e1) as [response e2].
  destruct (success response); unfold bind at 1; unfold bind at 1 in Hx.
  - destruct (Core._add_to_history self1' user_id "assistant" (text response) e2)
      as [self2 e3].
    unfold ret in Hx. rewrite <- Hx. unfold bind at 1.
    destruct (Core.notify_handlers self2 user_id message response e3) as [[] e4].
    reflexivity.
  - unfold ret in Hx. unfold ret at 1. rewrite <- Hx. unfold bind at 1.
    destruct (Core.notify_handlers self1' user_id message response e2) as [[] e4].
    reflexivity.
Qed.

End PathFacts.

(** ** Commands *)

Lemma with_handlers_same `{Outside} (self : Core.Agent) :
  Reading.with_handlers self (Core._message_handlers self) = self.
Proof. destruct self; reflexivity. Qed.

(** A response whose model is [system] was produced without any call to
    the outside: no provider, no clock, no handler. It is a success, and the
    store is as it was or lacks the user's conversation. *)
Theorem system_response_touches_nothing_outside `{Outside} self message user_id metadata
    (e : Env) :
  model (fst (fst (Core.process_message self message user_id metadata e))) = "system" ->
  let '(response, self', e') := Core.process_message self message user_id metadata e in
  success response = true
  /\ world e' = world e
  /\ (Core.conversations self' = Core.conversations self
      \/ Core.conversations self' = delete user_id (Core.conversations self)).
Proof.
  destruct (Reading.is_command message) eqn:Hc.
  - unfold Core.process_message. unfold bind. rewrite !logger_run.
    set (e0 := logged e _).
    destruct (String.eqb _ "/clear") eqn:H1.
    { intros _. pose proof (clear_history_run self user_id e0) as Hrun.
      destruct (Core.clear_history self user_id e0) as [self' e'].
      destruct Hrun as (_ & Hdel & Hworld). unfold ret. simpl. auto. }
    destruct (String.eqb _ "/status") eqn:H2.
    { intros _. unfold ret. simpl. auto. }
    destruct (PyStr.startswith _ "/model ") eqn:H3.
    { destruct (handle_model_command_cases self message user_id e0)
        as [[t Ht]|(actual & name & Hx)].
      - rewrite Ht. intros _. simpl. auto.
      - pose proof (exchange_response self user_id actual (Some name) e0) as Hm.
        rewrite Hx. intros Hs. rewrite Hs in Hm. destruct Hm; discriminate. }
    unfold Reading.is_command in Hc. cbv zeta in Hc.
    rewrite H1, H2, H3 in Hc. discriminate.
  - rewrite (process_message_exchange _ _ _ _ _ Hc).
    pose proof (exchange_response self user_id message None
                  (logged e [Reading.processing_record user_id message])) as Hm.
    destruct (Steps.exchange _ _ _ _ _) as [[response self'] e3].
    simpl in *. intros Hs. rewrite Hs in Hm. destruct Hm; discriminate.
Qed.

Lemma system_response_touches_nothing_outside_witness :
  model (fst (fst (@Core.process_message Scripted.all_up Watch.audited "/status" "alice"
                     None (@Scripted.start Scripted.all_up [])))) = "system"
  /\ let '(response, self', e') :=
       @Core.process_message Scripted.all_up Watch.audited "/status" "alice" None
         (@Scripted.start Scripted.all_up []) in
     success response = true
     /\ world e' = world (@Scripted.start Scripted.all_up [])
     /\ (Core.conversations self' = Core.conversations Watch.audited
         \/ Core.conversations self' = delete "alice" (Core.conversations Watch.audited)).
Proof.
  split; [reflexivity|].
  exact (@system_response_touches_nothing_outside Scripted.all_up Watch.audited "/status"
           "alice" None (@Scripted.start Scripted.all_up []) eq_refl).
Defined.

(** On every command exchange, whether it clears, reports, rejects a model
    name or generates with a forced model, no registered handler is
    awaited: the call gives what it gives with no handler registered. *)
Theorem commands_await_no_handler `{Outside} self message user_id metadata (e : Env) :
  Reading.is_command message = true ->
  Core.process_message self message user_id metadata e
  = let '(response, quiet, e') :=
      Core.process_message (Reading.with_handlers self []) message user_id metadata e in
    (response, Reading.with_handlers quiet (Core._message_handlers self), e').
Proof.
  intros Hc. unfold Core.process_message. unfold bind. rewrite !logger_run.
  set (e0 := logged e _).
  destruct (String.eqb _ "/clear") eqn:H1.
  { unfold Core.clear_history, Reading.with_handlers. destruct self as [r c m hs].
    cbn [Core.conversations Core.router Core.max_history Core._message_handlers].
    destruct (c !! user_id); reflexivity. }
  destruct (String.eqb _ "/status") eqn:H2.
  { unfold ret. destruct self; reflexivity. }
  destruct (PyStr.startswith _ "/model ") eqn:H3.
  { rewrite (handle_model_command_with_handlers self [] message user_id e0).
    pose proof (handle_model_command_with_handlers self (Core._message_handlers self)
                  message user_id e0) as Hsame.
    rewrite with_handlers_same in Hsame.
    destruct (Core._handle_model_command self message user_id e0)
      as [[response self'] e'].
    exact Hsame. }
  unfold Reading.is_command in Hc. cbv zeta in Hc.
  rewrite H1, H2, H3 in Hc. discriminate.
Qed.

(** A forced generation with a recording handler registered: the model is
    called and the history is written, and the trace holds no notification. *)
Lemma commands_await_no_handler_witness :
  Reading.is_command "/model ollama hello" = true
  /\ @Core.process_message Scripted.all_up Watch.audited "/model ollama hello" "alice"
       None (@Scripted.start Scripted.all_up [])
     = ({| text := "local answer"; model := "ollama"; model_version := Some "llama3.2";
           success := true; fallback := None; error := None |},
        @Reading.with_handlers Scripted.all_up
          (@Reading.appended Scripted.all_up
             (@Reading.appended Scripted.all_up
                (@Reading.with_handlers Scripted.all_up Watch.audited [])
                "alice" "user" "hello" Scripted.midnight)
             "alice" "assistant" "local answer" Scripted.midnight)
          [Scripted.recording_handler "audit" (Returned tt)],
        @Build_Env Scripted.all_up
          [Scripted.ReadClock; Scripted.CallOllama "hello" (Some []); Scripted.ReadClock]
          [(INFO, "Processing message from alice: /model ollama hello...")]).
Proof.
  split; [reflexivity|].
  exact (@commands_await_no_handler Scripted.all_up Watch.audited "/model ollama hello"
           "alice" None (@Scripted.start Scripted.all_up []) eq_refl).
Defined.

Lemma join_word_not_empty (w : string) (ws : list string) :
  w <> EmptyString -> String.eqb (PyStr.join " " (w :: ws)) EmptyString = false.
Proof.
  intros Hw. destruct w as [|c w]; [congruence|].
  destruct ws; reflexivity.
Qed.

Lemma model_prefix_is_no_other_command (s : string) :
  PyStr.startswith s "/model " = true ->
  String.eqb s "/clear" = false /\ String.eqb s "/status" = false.
Proof.
  intros Hm. split.
  - destruct (String.eqb_spec s "/clear") as [Heq|]; [|reflexivity].
    rewrite Heq in Hm. discriminate.
  - destruct (String.eqb_spec s "/status") as [Heq|]; [|reflexivity].
    rewrite Heq in Hm. discriminate.
Qed.

(** A model command with a message performs the exchange on the words that
    follow the backend name, joined by single spaces, with that backend
    forced. The text stored and sent has those same words: how the user
    spaced them, line breaks included, is not kept. *)
Theorem forced_exchange_joins_the_words `{Outside} self message user_id metadata
    (e : Env) (command name w : string) (ws : list string) :
  PyStr.startswith (PyStr.lower (PyStr.strip message)) "/model " = true ->
  PyStr.split (PyStr.strip message) = command :: name :: w :: ws ->
  PyStr.lower name = "ollama" \/ PyStr.lower name = "gemini" ->
  let actual_message := PyStr.join " " (w :: ws) in
  Core.process_message self message user_id metadata e
  = Steps.exchange self user_id actual_message (Some (PyStr.lower name))
      (logged e [Reading.processing_record user_id message])
  /\ PyStr.split actual_message = w :: ws.
Proof.
  intros Hmodel Hparts Hname. cbv zeta.
  pose proof (split_words (PyStr.strip message)) as Hwords. rewrite Hparts in Hwords.
  assert (Htail : Forall Shape.word (w :: ws)).
  { inversion Hwords as [|? ? _ Hw1]; subst. now inversion Hw1. }
  split; [|now apply split_join_words].
  destruct (model_prefix_is_no_other_command _ Hmodel) as [Hclear Hstatus].
  unfold Core.process_message. unfold bind at 1. rewrite logger_run.
  fold (Reading.processing_record user_id message).
  rewrite Hclear, Hstatus, Hmodel.
  unfold Core._handle_model_command. rewrite Hparts. cbv zeta.
  assert (Hlen : (Z.of_nat (length (command :: name :: w :: ws)) <? 2) = false)
    by (apply Z.ltb_ge; simpl length; lia).
  assert (Hlen2 : (2 <? Z.of_nat (length (command :: name :: w :: ws))) = true)
    by (apply Z.ltb_lt; simpl length; lia).
  rewrite Hlen, Hlen2.
  change ((command :: name :: w :: ws) !! 1%nat) with (Some name).
  change (default EmptyString (Some name)) with name.
  assert (Hin : negb (String.eqb (PyStr.lower name) "ollama"
                      || String.eqb (PyStr.lower name) "gemini") = false)
    by (destruct Hname as [-> | ->]; reflexivity).
  rewrite Hin.
  assert (Hslice : PyList.slice_from 2 (command :: name :: w :: ws) = w :: ws).
  { unfold PyList.slice_from, PyList.clamp. change (2 <? 0) with false. cbv iota.
    replace (Z.to_nat _) with 2%nat by (simpl length; lia). reflexivity. }
  rewrite Hslice.
  inversion Htail as [|? ? [Hw _] _]; subst.
  rewrite (join_word_not_empty w ws Hw).
  apply exchange_run.
Qed.

(** A forced message spread over two lines is stored and sent on one. *)
Lemma forced_exchange_joins_the_words_witness :
  let message := "/model  Ollama  first line" +:+ Core.nl +:+ "second   line" in
  (PyStr.startswith (PyStr.lower (PyStr.strip message)) "/model " = true
   /\ PyStr.split (PyStr.strip message)
      = ["/model"; "Ollama"; "first"; "line"; "second"; "line"]
   /\ (PyStr.lower "Ollama" = "ollama" \/ PyStr.lower "Ollama" = "gemini"))
  /\ @Core.process_message Scripted.all_up Watch.audited message "alice" None
       (@Scripted.start Scripted.all_up [])
     = @Steps.exchange Scripted.all_up Watch.audited "alice" "first line second line"
         (Some "ollama")
         (@Build_Env Scripted.all_up []
            [@Reading.processing_record "alice" message])
  /\ PyStr.split "first line second line" = ["first"; "line"; "second"; "line"].
Proof.
  split; [split; [reflexivity | split; [reflexivity | left; reflexivity]]|].
  exact (@forced_exchange_joins_the_words Scripted.all_up Watch.audited
           ("/model  Ollama  first line" +:+ Core.nl +:+ "second   line") "alice" None
           (@Scripted.start Scripted.all_up []) "/model" "Ollama" "first"
           ["line"; "second"; "line"] eq_refl eq_refl (or_introl eq_refl)).
Defined.

(** ** The model branch always has a backend name *)

Lemma isspace_lower_char (c : ascii) : PyStr.isspace (PyStr.lower_char c) = PyStr.isspace c.
Proof.
  destruct c as [b0 b1 b2 b3 b4 b5 b6 b7].
  destruct b0, b1, b2, b3, b4, b5, b6, b7; reflexivity.
Qed.

(** All characters of the string are white space *)
Lemma split_aux_nil (s : string) : forall acc,
  PyStr.split_aux s acc = [] ->
  acc = EmptyString /\ forallb PyStr.isspace (list_ascii_of_string s) = true.
Proof.
  induction s as [|c s IH]; intros acc Hs; simpl in Hs.
  - destruct (String.eqb_spec acc EmptyString); [auto|discriminate].
  - destruct (PyStr.isspace c) eqn:Hc.
    + destruct (String.eqb_spec acc EmptyString); [|discriminate].
      destruct (IH _ Hs) as [_ Hb]. simpl. rewrite Hc. auto.
    + destruct (IH _ Hs) as [Hacc _]. destruct acc; discriminate.
Qed.

Lemma append_nil_l (s : string) : EmptyString +:+ s = s.
Proof. reflexivity. Qed.

(** What [rstrip] returns has no white-space suffix. *)
Lemma rstrip_no_blank_suffix (s : string) : forall p q,
  PyStr.rstrip s = p +:+ q ->
  forallb PyStr.isspace (list_ascii_of_string q) = true -> q = EmptyString.
Proof.
  induction s as [|c s IH]; intros p q Hs Hq; simpl in Hs.
  - destruct p; [rewrite append_nil_l in Hs; now subst | discriminate].
  - destruct (PyStr.rstrip s) as [|d k] eqn:Hk.
    + destruct (PyStr.isspace c) eqn:Hc.
      * destruct p; [rewrite append_nil_l in Hs; now subst | discriminate].
      * destruct p as [|c' p].
        -- rewrite append_nil_l in Hs. subst q. simpl in Hq. rewrite Hc in Hq.
           discriminate.
        -- rewrite append_cons in Hs. injection Hs as _ Hs.
           destruct p; [rewrite append_nil_l in Hs; now subst | discriminate].
    + destruct p as [|c' p].
      * rewrite append_nil_l in Hs. subst q. simpl in Hq.
        apply andb_true_iff in Hq as [_ Hq].
        specialize (IH EmptyString (String d k) eq_refl Hq). discriminate.
      * rewrite append_cons in Hs. injection Hs as _ Hs. exact (IH p q Hs Hq).
Qed.

Lemma prefix_cons (a b : ascii) (p s : string) :
  String.prefix (String a p) (String b s) = true -> a = b /\ String.prefix p s = true.
Proof.
  change (String.prefix (String a p) (String b s))
    with (if ascii_dec a b then String.prefix p s else false).
  destruct (ascii_dec a b); [auto|discriminate].
Qed.

Lemma prefix_cons_nil (a : ascii) (p : string) :
  String.prefix (String a p) EmptyString = true -> False.
Proof. discriminate. Qed.

(** Seven characters that lower to [/model ] are six non-spaces and a
    space, so that [split] closes a first word after them. *)
Lemma split_after_model_prefix (t : string) :
  PyStr.startswith (PyStr.lower t) "/model " = true ->
  exists (first : string) (c6 : ascii) (rest : string),
    t = first +:+ String c6 rest
    /\ PyStr.isspace c6 = true
    /\ PyStr.split t = first :: PyStr.split rest.
Proof.
  unfold PyStr.startswith. intros Hp.
  destruct t as [|c0 [|c1 [|c2 [|c3 [|c4 [|c5 [|c6 rest]]]]]]];
    cbn [PyStr.lower] in Hp;
    repeat match type of Hp with
           | String.prefix (String _ _) (String _ _) = true =>
               apply prefix_cons in Hp as [? Hp]
           | String.prefix (String _ _) EmptyString = true =>
               destruct (prefix_cons_nil _ _ Hp)
           end.
  exists (String c0 (String c1 (String c2 (String c3 (String c4 (String c5
            EmptyString)))))), c6, rest.
  assert (Hs : forall c l, l = PyStr.lower_char c -> PyStr.isspace c = PyStr.isspace l)
    by (intros ? ? ->; symmetry; apply isspace_lower_char).
  repeat match goal with
         | E : _ = PyStr.lower_char ?c |- _ =>
             apply Hs in E;
             match type of E with
             | _ = ?r => let v := eval vm_compute in r in change r with v in E
             end
         end.
  split; [reflexivity|]. split; [assumption|].
  unfold PyStr.split. simpl.
  repeat match goal with E : PyStr.isspace _ = _ |- _ => rewrite E; clear E end.
  reflexivity.
Qed.

(** A message that takes the model branch has at least two words, so the
    usage reply of [_handle_model_command] is never what [process_message]
    returns for it. *)
Theorem model_branch_never_shows_usage `{Outside} self message user_id metadata (e : Env) :
  PyStr.startswith (PyStr.lower (PyStr.strip message)) "/model " = true ->
  (2 <= length (PyStr.split (PyStr.strip message)))%nat
  /\ fst (fst (Core.process_message self message user_id metadata e))
     <> Core.system_response "Usage: /model [ollama|gemini] <message>".
Proof.
  intros Hmodel.
  assert (Hlen : (2 <= length (PyStr.split (PyStr.strip message)))%nat).
  { destruct (split_after_model_prefix _ Hmodel) as (first & c6 & rest & Ht & Hsp & Hsplit).
    rewrite Hsplit. simpl length.
    destruct (PyStr.split rest) as [|x l] eqn:Hrest; [|simpl; lia].
    exfalso. apply split_aux_nil in Hrest as [_ Hblank].
    unfold PyStr.strip in Ht.
    pose proof (rstrip_no_blank_suffix (PyStr.lstrip message) first (String c6 rest) Ht)
      as Hno.
    simpl in Hno. rewrite Hsp, Hblank in Hno. specialize (Hno eq_refl). discriminate. }
  split; [exact Hlen|].
  destruct (model_prefix_is_no_other_command _ Hmodel) as [Hclear Hstatus].
  unfold Core.process_message. unfold bind at 1. rewrite logger_run.
  rewrite Hclear, Hstatus, Hmodel.
  set (e0 := logged e _).
  unfold Core._handle_model_command. cbv zeta.
  assert (Hlt : (Z.of_nat (length (PyStr.split (PyStr.strip message))) <? 2) = false)
    by (apply Z.ltb_ge; lia).
  rewrite Hlt.
  destruct (negb _); [unfold ret; simpl; discriminate|].
  destruct (String.eqb _ EmptyString).
  - unfold ret. simpl. unfold Core.system_response. intros Heq.
    injection Heq as Heq. discriminate.
  - rewrite exchange_run.
    match goal with |- context [Steps.exchange ?a ?u ?m ?f ?e1] =>
      pose proof (exchange_response a u m f e1) as Hm end.
    intros Heq. rewrite Heq in Hm. simpl in Hm. destruct Hm; discriminate.
Qed.

Lemma model_branch_never_shows_usage_witness :
  PyStr.startswith (PyStr.lower (PyStr.strip "/MODEL x")) "/model " = true
  /\ (2 <= length (PyStr.split (PyStr.strip "/MODEL x")))%nat
  /\ fst (fst (@Core.process_message Scripted.all_up Watch.audited "/MODEL x" "alice" None
                 (@Scripted.start Scripted.all_up [])))
     <> Core.system_response "Usage: /model [ollama|gemini] <message>".
Proof.
  split; [reflexivity|].
  exact (@model_branch_never_shows_usage Scripted.all_up Watch.audited "/MODEL x" "alice"
           None (@Scripted.start Scripted.all_up []) eq_refl).
Defined.

(** ** The context of an exchange *)

Lemma drop_snoc_within {A} (k : nat) (l : list A) (x : A) :
  (k <= length l)%nat -> drop k (l ++ [x]) = drop k l ++ [x].
Proof. intros Hk. now rewrite drop_app_le. Qed.

(** With a bound of at least one, the stored history without the entry
    just appended is the last [max_history - 1] entries of the history as
    it was before. *)
Lemma context_last_n `{Outside} self user_id role content timestamp :
  1 <= Core.max_history self ->
  PyList.slice_to (-1)
    (Reading.history_of (Reading.appended self user_id role content timestamp) user_id)
  = Reading.last_n (Z.to_nat (Core.max_history self - 1)) (Reading.history_of self user_id).
Proof.
  intros Hm. rewrite history_of_appended, trimmed_last_n by exact Hm.
  unfold Reading.last_n at 1. rewrite length_app. simpl length.
  rewrite drop_snoc_within by lia. rewrite slice_to_minus_one_snoc.
  unfold Reading.last_n. f_equal. lia.
Qed.

(** With a bound of at least one, the context that the normal path passes
    to the router is the last [max_history - 1] entries the user had before
    the message: the response is that of [generate] on this context, which
    is never longer than [max_history - 1]. *)
Theorem context_is_the_recent_history `{Outside} self message user_id metadata (e : Env) :
  Reading.is_command message = false ->
  1 <= Core.max_history self ->
  let context :=
    Reading.last_n (Z.to_nat (Core.max_history self - 1))
      (Reading.history_of self user_id) in
  fst (fst (Core.process_message self message user_id metadata e))
  = fst (Router.generate (Core.router self) message (Some context) None
           {| world := snd (now_isoformat (world e));
              logs := logs e ++ [Reading.processing_record user_id message] |})
  /\ Z.of_nat (length context) <= Core.max_history self - 1.
Proof.
  intros Hc Hm. cbv zeta. split.
  - rewrite (process_message_exchange _ _ _ _ _ Hc). unfold Steps.exchange.
    rewrite world_logged.
    destruct (now_isoformat (world e)) as [timestamp w1]. simpl snd.
    rewrite context_last_n by exact Hm.
    change (logs (logged e [Reading.processing_record user_id message]))
      with (logs e ++ [Reading.processing_record user_id message]).
    destruct (Router.generate _ _ _ _ _) as [response e2].
    destruct (success response).
    + destruct (Core._add_to_history _ _ _ _ e2) as [self2 e3]. reflexivity.
    + reflexivity.
  - pose proof (length_last_n (Z.to_nat (Core.max_history self - 1))
                  (Reading.history_of self user_id)). lia.
Qed.

(** A bound of two and three stored entries: the model sees the last one. *)
Lemma context_is_the_recent_history_witness :
  let self := @Reading.with_handlers Scripted.all_up
                (@Scripted.agent Scripted.all_up (Scripted.local_only [] 500) 2 []) [] in
  let self := @Reading.appended Scripted.all_up
                (@Reading.appended Scripted.all_up self "alice" "user" "one"
                   Scripted.midnight)
                "alice" "assistant" "two" Scripted.midnight in
  (Reading.is_command "three" = false /\ 1 <= 2)
  /\ fst (fst (@Core.process_message Scripted.all_up self "three" "alice" None
                 (@Scripted.start Scripted.all_up [])))
     = fst (@Router.generate Scripted.all_up (Scripted.local_only [] 500) "three"
              (Some [Core.new_message "assistant" "two" Scripted.midnight]) None
              (@Build_Env Scripted.all_up [Scripted.ReadClock]
                 [Reading.processing_record "alice" "three"]))
  /\ 1 <= 2 - 1.
Proof.
  split; [split; [reflexivity | lia]|].
  exact (@context_is_the_recent_history Scripted.all_up
           (@Reading.appended Scripted.all_up
              (@Reading.appended Scripted.all_up
                 (@Reading.with_handlers Scripted.all_up
                    (@Scripted.agent Scripted.all_up (Scripted.local_only [] 500) 2 []) [])
                 "alice" "user" "one" Scripted.midnight)
              "alice" "assistant" "two" Scripted.midnight)
           "three" "alice" None (@Scripted.start Scripted.all_up [])
           eq_refl ltac:(simpl; lia)).
Defined.

(** ** Registering a handler *)

Lemma hook_world_app `{Outside} (hs1 hs2 : list Core.Handler) user_id message response w :
  Reading.hook_world (hs1 ++ hs2) user_id message response w
  = Reading.hook_world hs2 user_id message response
      (Reading.hook_world hs1 user_id message response w).
Proof. unfold Reading.hook_world. apply fold_left_app. Qed.

Lemma hook_records_app `{Outside} (hs1 hs2 : list Core.Handler) user_id message response :
  forall w,
  Reading.hook_records (hs1 ++ hs2) user_id message response w
  = Reading.hook_records hs1 user_id message response w
    ++ Reading.hook_records hs2 user_id message response
         (Reading.hook_world hs1 user_id message response w).
Proof.
  induction hs1 as [|h hs1 IH]; intros w; [reflexivity|].
  simpl. unfold Reading.hook_world. simpl fold_left.
  destruct (h user_id message response w) as [outcome w']. simpl snd.
  rewrite IH, <- app_assoc. reflexivity.
Qed.

(** Registering a handler changes nothing of an exchange except that the
    new handler is awaited once more, after all the others, in the world
    they left; if it raises, that adds one error record. *)
Theorem registered_handler_runs_last `{Outside} self (handler : Core.Handler)
    message user_id metadata (e : Env) :
  Reading.is_command message = false ->
  let '(response, self', e') := Core.process_message self message user_id metadata e in
  Core.process_message (Core.on_message self handler) message user_id metadata e
  = let (outcome, w) := handler user_id message response (world e') in
    (response,
     Core.on_message self' handler,
     {| world := w;
        logs := logs e' ++ match outcome with
                           | Returned _ => []
                           | Raised x => [(ERROR, "Message handler error: " +:+ x)]
                           end |}).
Proof.
  intros Hc. rewrite !(process_message_exchange _ _ _ _ _ Hc).
  change (Core.on_message self handler)
    with (Reading.with_handlers self (Core._message_handlers self ++ [handler])).
  rewrite exchange_with_handlers.
  pose proof (exchange_with_handlers self (Core._message_handlers self) user_id message
                None (logged e [Reading.processing_record user_id message])) as Hsame.
  rewrite with_handlers_same in Hsame.
  destruct (Steps.exchange self user_id message None _) as [[response self'] e3].
  injection Hsame as Hsame.
  assert (Hh : Core._message_handlers self' = Core._message_handlers self)
    by (rewrite Hsame; reflexivity).
  rewrite !notify_handlers_run. simpl Core._message_handlers. simpl snd.
  rewrite Hh, hook_world_app, hook_records_app.
  unfold Reading.hook_world at 1. simpl fold_left.
  simpl Reading.hook_records at 2.
  simpl world. simpl logs.
  destruct (handler user_id message response _) as [outcome w]. simpl snd.
  rewrite app_nil_r, app_assoc.
  f_equal. f_equal. unfold Core.on_message, Reading.with_handlers.
  simpl. now rewrite Hh.
Qed.

(** The audited agent with a late handler that raises. *)
Lemma registered_handler_runs_last_witness :
  let response := {| text := "local answer"; model := "ollama";
                     model_version := Some "llama3.2";
                     success := true; fallback := None; error := None |} in
  Reading.is_command "hello" = false
  /\ @Core.process_message Scripted.all_up
       (@Core.on_message Scripted.all_up Watch.audited Watch.late) "hello" "alice" None
       (@Scripted.start Scripted.all_up [])
     = (response,
        @Core.on_message Scripted.all_up
          (@Reading.appended Scripted.all_up
             (@Reading.appended Scripted.all_up Watch.audited
                "alice" "user" "hello" Scripted.midnight)
             "alice" "assistant" "local answer" Scripted.midnight)
          Watch.late,
        @Build_Env Scripted.all_up
          [Scripted.ReadClock; Scripted.CallOllama "hello" (Some []); Scripted.ReadClock;
           Scripted.Notified "audit" "alice" "hello" response;
           Scripted.Notified "late" "alice" "hello" response]
          [(INFO, "Processing message from alice: hello...");
           (DEBUG, "Complexity score: 1, threshold: 500");
           (DEBUG, "Using Ollama");
           (ERROR, "Message handler error: late failure")]).
Proof.
  split; [reflexivity|].
  exact (@registered_handler_runs_last Scripted.all_up Watch.audited Watch.late
           "hello" "alice" None (@Scripted.start Scripted.all_up []) eq_refl).
Defined.

(** ** The global agent *)

(** The global agent is created once: whatever the global held, a second
    call returns the agent of the first call and does nothing else, neither
    reading the settings again nor logging. *)
Theorem get_agent_creates_once `{Outside} (global : option Core.Agent) (e : Env) :
  let '(first, global1, e1) := Singleton.get_agent global e in
  global1 = Some first
  /\ Singleton.get_agent global1 e1 = (first, global1, e1)
  /\ (forall existing, global = Some existing -> first = existing /\ e1 = e).
Proof.
  unfold Singleton.get_agent. destruct global as [existing|].
  - unfold ret. repeat split; congruence.
  - unfold bind. destruct (Core.__init__ e) as [created e1]. unfold ret.
    repeat split; discriminate.
Qed.

(** ** What the adapters send *)

Lemma summary_app (a b : list Message) :
  Scripted.summary (a ++ b) = Scripted.summary a ++ Scripted.summary b.
Proof. unfold Scripted.summary. apply map_app. Qed.

Lemma summary_new_message (role content timestamp : string) :
  Scripted.summary [Core.new_message role content timestamp] = [(Some role, Some content)].
Proof. reflexivity. Qed.

Lemma summary_chat_message (role content : string) :
  Scripted.summary [Clients.chat_message role content] = [(Some role, Some content)].
Proof. reflexivity. Qed.

(** With a bound that is not negative, the messages that
    [_format_messages] builds from the message and the context of an
    exchange are, role by role and content by content, the system prompt
    followed by the history as it is stored at that moment: the message is
    there once, as the last entry. *)
Theorem ollama_gets_the_stored_history `{Outside} self user_id message (e : Env) :
  0 <= Core.max_history self ->
  let (self1, _) := Core._add_to_history self user_id "user" message e in
  let context := PyList.slice_to (-1) (Reading.history_of self1 user_id) in
  Scripted.summary (Clients._format_messages message (Some context))
  = (Some "system", Some Clients.ollama_system_prompt)
    :: Scripted.summary (Reading.history_of self1 user_id).
Proof.
  intros Hm. rewrite add_to_history_run.
  destruct (now_isoformat (world e)) as [timestamp w1]. cbv zeta.
  rewrite history_of_appended.
  destruct (trimmed_snoc (Core.max_history self) (Reading.history_of self user_id)
              (Core.new_message "user" message timestamp)) as [[kept ->]|[Hneg _]];
    [|lia].
  rewrite slice_to_minus_one_snoc, summary_app, summary_new_message.
  unfold Clients._format_messages.
  destruct kept as [|m kept]; [reflexivity|].
  cbv zeta. rewrite !summary_app, summary_chat_message. reflexivity.
Qed.

Lemma ollama_gets_the_stored_history_witness :
  0 <= 20
  /\ let (self1, _) :=
       @Core._add_to_history Scripted.all_up Scenario.five_entries "alice" "user" "six"
         (@Scripted.start Scripted.all_up []) in
     let context :=
       PyList.slice_to (-1) (@Reading.history_of Scripted.all_up self1 "alice") in
     Scripted.summary (Clients._format_messages "six" (Some context))
     = [(Some "system", Some Clients.ollama_system_prompt);
        (Some "user", Some "one"); (Some "assistant", Some "two");
        (Some "user", Some "three"); (Some "assistant", Some "four");
        (Some "user", Some "five"); (Some "user", Some "six")].
Proof.
  split; [lia|].
  exact (@ollama_gets_the_stored_history Scripted.all_up Scenario.five_entries "alice"
           "six" (@Scripted.start Scripted.all_up []) ltac:(vm_compute; discriminate)).
Defined.

(** The history given to Gemini has one turn per context entry, in order;
    a turn is [user] exactly when the entry's role is [user] and [model] in
    every other case, a missing role included; its one part is the entry's
    content, or the empty string when the entry has none. *)
Theorem gemini_history_has_two_roles (context : option (list Message)) :
  Forall2 (fun (msg : Message) (turn : Clients.Turn) =>
             (Clients.turn_role turn = "user" <-> msg !! "role" = Some "user")
             /\ (Clients.turn_role turn = "user" \/ Clients.turn_role turn = "model")
             /\ Clients.turn_parts turn = [default EmptyString (msg !! "content")])
          (default [] context) (Clients._format_history context).
Proof.
  assert (Hmap : forall l : list Message,
    Forall2 (fun (msg : Message) (turn : Clients.Turn) =>
               (Clients.turn_role turn = "user" <-> msg !! "role" = Some "user")
               /\ (Clients.turn_role turn = "user" \/ Clients.turn_role turn = "model")
               /\ Clients.turn_parts turn = [default EmptyString (msg !! "content")])
      l (map (fun msg : Message =>
                {| Clients.turn_role := if Router.is_str (msg !! "role") "user"
                                        then "user" else "model";
                   Clients.turn_parts := [default EmptyString (msg !! "content")] |}) l)).
  { induction l as [|msg l IH]; simpl; constructor; [|exact IH].
    simpl. destruct (msg !! "role") as [r|] eqn:Hr; simpl.
    - destruct (String.eqb_spec r "user") as [->|Hne]; simpl.
      + repeat split; auto.
      + repeat split; auto; try discriminate. intros Heq. congruence.
    - repeat split; auto; discriminate. }
  destruct context as [[|msg l]|].
  - constructor.
  - exact (Hmap (msg :: l)).
  - constructor.
Qed.

(** ** The clients under the router *)

Lemma chosen_of_choose_model `{Outside} self message context force_model (e : Env) :
  fst (Router.choose_model self message context force_model e) = false ->
  Reading.chosen self message context force_model = Spec.local.
Proof.
  rewrite choose_model_run. cbn [fst].
  destruct (Reading.chosen self message context force_model); [reflexivity|discriminate].
Qed.

(** When the router selects the local model and the Ollama server answers
    the chat request with a status other than 200, the caller gets the
    apology with [success] false and the error
    [Ollama error (<status>): <body>], whatever the body: the body is never
    parsed as an answer. The request posted to [<host>/api/chat] carries the
    configured model, the formatted messages and [stream] false. *)
Theorem ollama_http_error_reaches_the_caller `{Clients.Transport} (s : Config.Settings)
    (self : Router.ModelRouter) message context force_model
    (e : @Env (Clients.over_transport s)) reply n body :
  fst (@Router.choose_model (Clients.over_transport s) self message context force_model e)
  = false ->
  Router.ollama self <> None ->
  Clients.post_json (Config.ollama_host s +:+ "/api/chat")
    {| Clients.payload_model := Config.ollama_model s;
       Clients.payload_messages := Clients._format_messages message context;
       Clients.payload_stream := false |}
    (fst (world e))
  = (Returned reply, n) ->
  Clients.reply_status reply <> 200 ->
  Clients.reply_text reply = Returned body ->
  fst (@Router.generate (Clients.over_transport s) self message context force_model e)
  = {| text := Shape.apology;
       model := "ollama";
       model_version := None;
       success := false;
       fallback := None;
       error := Some ("Ollama error (" +:+ PyStr.of_int (Clients.reply_status reply)
                      +:+ "): " +:+ body) |}.
Proof.
  intros Hc Ho Hpost Hstatus Hbody.
  apply (@chosen_of_choose_model (Clients.over_transport s)) in Hc.
  rewrite (@generate_local (Clients.over_transport s) _ _ _ _ _ Hc). cbv zeta.
  rewrite (@call_ollama_world (Clients.over_transport s)).
  destruct (Router.ollama self) as [o|]; [|congruence].
  rewrite (@world_logged (Clients.over_transport s)).
  cbn [ollama_generate Clients.over_transport].
  unfold Clients.ollama_client_generate. cbv zeta.
  unfold Clients.wire_log at 1. cbn [fst]. rewrite Hpost.
  apply Z.eqb_neq in Hstatus. rewrite Hstatus. cbn [negb]. rewrite Hbody.
  reflexivity.
Qed.

Lemma ollama_http_error_reaches_the_caller_witness :
  fst (@Router.generate Wires.overloaded_world (Scripted.both_adapters [] 500) "hello"
         None None (@Build_Env Wires.overloaded_world ([], []) []))
  = {| text := Shape.apology;
       model := "ollama";
       model_version := None;
       success := false;
       fallback := None;
       error := Some "Ollama error (503): overloaded" |}.
Proof.
  exact (@ollama_http_error_reaches_the_caller Wires.overloaded Config.defaults
           (Scripted.both_adapters [] 500) "hello" None None
           (@Build_Env Wires.overloaded_world ([], []) [])
           {| Clients.reply_status := 503;
              Clients.reply_text := Returned "overloaded";
              Clients.reply_content := Raised "no body was parsed" |}
           [Wires.Posted "http://localhost:11434/api/chat"
              {| Clients.payload_model := Config.ollama_model Config.defaults;
                 Clients.payload_messages := Clients._format_messages "hello" None;
                 Clients.payload_stream := false |}]
           "overloaded"
           eq_refl ltac:(discriminate) eq_refl ltac:(discriminate) eq_refl).
Defined.

Lemma last_n_nil {A} (n : nat) : Reading.last_n n (@nil A) = [].
Proof. reflexivity. Qed.

Lemma last_n_zero {A} (l : list A) : Reading.last_n 0 l = [].
Proof. unfold Reading.last_n. rewrite Nat.sub_0_r. apply drop_all. Qed.

Lemma last_n_cons_pos {A} (n : nat) (x : A) (l : list A) :
  (0 < n)%nat -> exists y rest, Reading.last_n n (x :: l) = y :: rest.
Proof.
  intros Hn.
  assert (Hlen : length (Reading.last_n n (x :: l)) = Nat.min n (S (length l))).
  { unfold Reading.last_n. rewrite length_drop. simpl length. lia. }
  destruct (Reading.last_n n (x :: l)) as [|y rest]; [|eauto].
  simpl in Hlen. lia.
Qed.

(** With a bound of at least one, the Gemini client called with the
    message and the context of an exchange sends the system prompt exactly
    when the user had no stored entry before the message or the bound is
    one: then it asks for a completion of the system prompt followed by the
    message. In every other case it opens a chat on the formatted context
    and sends the bare message, so the system prompt is not part of the
    request. *)
Theorem gemini_gets_the_prompt_without_history `{Clients.Transport} (s : Config.Settings)
    (self : @Core.Agent (Clients.over_transport s)) user_id message
    (e : @Env (Clients.over_transport s)) (w : Clients.Wire) :
  1 <= Core.max_history self ->
  let (self1, _) :=
    @Core._add_to_history (Clients.over_transport s) self user_id "user" message e in
  let context := Some (PyList.slice_to (-1) (Reading.history_of self1 user_id)) in
  let w0 := ClientReading.requested (Config.gemini_model s) w in
  Clients.gemini_client_generate s message context w
  = ClientReading.finish w0
      (if match Reading.history_of self user_id with [] => true | _ => false end
          || (Core.max_history self =? 1)
       then Clients.generate_content (Config.gemini_model s)
              (ClientReading.first_prompt message) (fst w0)
       else Clients.chat_send (Config.gemini_model s) (Clients._format_history context)
              message (fst w0)).
Proof.
  intros Hm. rewrite (@add_to_history_run (Clients.over_transport s)).
  destruct (now_isoformat (world e)) as [timestamp w1]. cbv zeta.
  rewrite (@context_last_n (Clients.over_transport s)) by exact Hm.
  unfold Clients.gemini_client_generate. cbv zeta.
  fold (ClientReading.requested (Config.gemini_model s) w).
  set (w0 := ClientReading.requested (Config.gemini_model s) w).
  destruct (Reading.history_of self user_id) as [|m l] eqn:Hh.
  - rewrite last_n_nil. cbn [orb Clients._format_history].
    unfold ClientReading.first_prompt, ClientReading.finish.
    destruct (Clients.generate_content _ _ _) as [[answer|x] n]; reflexivity.
  - cbn [orb]. destruct (Z.eqb_spec (Core.max_history self) 1) as [H1|H1].
    + rewrite H1. change (Z.to_nat (1 - 1)) with 0%nat. rewrite last_n_zero.
      cbn [Clients._format_history].
      unfold ClientReading.first_prompt, ClientReading.finish.
      destruct (Clients.generate_content _ _ _) as [[answer|x] n]; reflexivity.
    + destruct (last_n_cons_pos (Z.to_nat (Core.max_history self - 1)) m l)
        as (y & rest & ->); [lia|].
      cbn [Clients._format_history map]. unfold ClientReading.finish.
      destruct (Clients.chat_send _ _ _ _) as [[answer|x] n]; reflexivity.
Qed.

Lemma gemini_gets_the_prompt_without_history_witness :
  1 <= 20
  /\ @Clients.gemini_client_generate Wires.overloaded Config.defaults "two"
       (Some [Core.new_message "user" "one" Scripted.midnight]) ([], [])
     = (Returned "cloud answer",
        ([Wires.ChatSent "gemini-1.5-pro"
            [{| Clients.turn_role := "user"; Clients.turn_parts := ["one"] |}] "two"],
         [(DEBUG, "Gemini request: gemini-1.5-pro")])).
Proof.
  split; [lia|].
  exact (@gemini_gets_the_prompt_without_history Wires.overloaded Config.defaults
           Wires.greeted "alice" "two" (@Scripted.start Wires.overloaded_world ([], []))
           ([], []) ltac:(vm_compute; discriminate)).
Defined.

(** ** The tags of a reasoned reply *)

Lemma strip_prefix_prefix (p s : string) :
  is_Some (Tagged.strip_prefix p s) <-> String.prefix p s = true.
Proof.
  revert s. induction p as [|a p IH]; intros s.
  - split; [intros _; now destruct s|intros _; now exists s].
  - destruct s as [|b s].
    + split; [intros [r Hr]; discriminate|discriminate].
    + change (String.prefix (String a p) (String b s))
        with (if ascii_dec a b then String.prefix p s else false).
      simpl Tagged.strip_prefix.
      destruct (ascii_dec a b) as [->|Hne].
      * rewrite Ascii.eqb_refl. apply IH.
      * apply Ascii.eqb_neq in Hne. rewrite Hne.
        split; [intros [r Hr]; discriminate|discriminate].
Qed.

Lemma strip_prefix_none (p s : string) :
  String.prefix p s = false -> Tagged.strip_prefix p s = None.
Proof.
  intros Hp. destruct (Tagged.strip_prefix p s) as [r|] eqn:Hr; [|reflexivity].
  assert (Hs : is_Some (Tagged.strip_prefix p s)) by (rewrite Hr; eauto).
  apply strip_prefix_prefix in Hs. congruence.
Qed.

Lemma strip_prefix_app (p rest : string) : Tagged.strip_prefix p (p +:+ rest) = Some rest.
Proof.
  induction p as [|a p IH]; [reflexivity|].
  rewrite append_cons. simpl. now rewrite Ascii.eqb_refl.
Qed.

Lemma split_at_first_unfold (needle hay : string) :
  Tagged.split_at_first needle hay
  = match Tagged.strip_prefix needle hay with
    | Some rest => Some (EmptyString, rest)
    | None =>
        match hay with
        | EmptyString => None
        | String c r =>
            match Tagged.split_at_first needle r with
            | Some (before, rest) => Some (String c before, rest)
            | None => None
            end
        end
    end.
Proof. destruct hay; reflexivity. Qed.

Lemma contains_cons (needle : string) (c : ascii) (r : string) :
  PyStr.contains needle (String c r) = false ->
  String.prefix needle (String c r) = false /\ PyStr.contains needle r = false.
Proof.
  change (PyStr.contains needle (String c r))
    with (String.prefix needle (String c r) || PyStr.contains needle r).
  intros Hc. now apply orb_false_iff in Hc.
Qed.

(** Without an occurrence there is nothing to split at. *)
Lemma split_at_first_absent (needle hay : string) :
  PyStr.contains needle hay = false -> Tagged.split_at_first needle hay = None.
Proof.
  induction hay as [|c r IH]; intros Hc; rewrite split_at_first_unfold.
  - change (PyStr.contains needle EmptyString)
      with (String.prefix needle EmptyString || false) in Hc.
    apply orb_false_iff in Hc as [Hp _].
    now rewrite (strip_prefix_none _ _ Hp).
  - apply contains_cons in Hc as [Hp Hr].
    rewrite (strip_prefix_none _ _ Hp), (IH Hr). reflexivity.
Qed.

(** What is split off is the text around an occurrence. *)
Lemma strip_prefix_sound (p s rest : string) :
  Tagged.strip_prefix p s = Some rest -> s = p +:+ rest.
Proof.
  revert s. induction p as [|a p IH]; intros s Hs.
  - simpl in Hs. now inversion Hs.
  - destruct s as [|b s]; [discriminate|]. simpl in Hs.
    destruct (Ascii.eqb_spec a b) as [->|]; [|discriminate].
    rewrite append_cons. f_equal. now apply IH.
Qed.

Lemma split_at_first_sound (needle hay before rest : string) :
  Tagged.split_at_first needle hay = Some (before, rest) ->
  hay = before +:+ needle +:+ rest.
Proof.
  revert before. induction hay as [|c r IH]; intros before;
    rewrite split_at_first_unfold.
  - destruct (Tagged.strip_prefix needle EmptyString) as [x|] eqn:Hx; [|discriminate].
    intros Heq. inversion Heq; subst. rewrite append_nil_l.
    now apply strip_prefix_sound.
  - destruct (Tagged.strip_prefix needle (String c r)) as [x|] eqn:Hx.
    + intros Heq. inversion Heq; subst. rewrite append_nil_l.
      now apply strip_prefix_sound.
    + destruct (Tagged.split_at_first needle r) as [[b x]|] eqn:Hr; [|discriminate].
      intros Heq. inversion Heq; subst. rewrite append_cons. f_equal. now apply IH.
Qed.

Lemma contains_suffix (needle a b : string) :
  PyStr.contains needle (a +:+ b) = false -> PyStr.contains needle b = false.
Proof.
  induction a as [|c a IH]; [now rewrite append_nil_l|].
  rewrite append_cons. intros Hc. apply contains_cons in Hc as [_ Hc]. now apply IH.
Qed.

(** A search finds no group when either tag is missing. *)
Lemma search_group_absent (open close s : string) :
  PyStr.contains open s = false \/ PyStr.contains close s = false ->
  Tagged.search_group open close s = None.
Proof.
  unfold Tagged.search_group. intros [Ho|Hc].
  - now rewrite (split_at_first_absent _ _ Ho).
  - destruct (Tagged.split_at_first open s) as [[before rest]|] eqn:Hs; [|reflexivity].
    apply split_at_first_sound in Hs. subst s.
    apply contains_suffix in Hc. apply contains_suffix in Hc.
    now rewrite (split_at_first_absent _ _ Hc).
Qed.

Lemma strip_prefix_app_inv (q x z r : string) :
  Tagged.strip_prefix q (x +:+ z) = Some r ->
  is_Some (Tagged.strip_prefix q x)
  \/ exists q2, q = x +:+ q2 /\ Tagged.strip_prefix q2 z = Some r.
Proof.
  revert x. induction q as [|a q IH]; intros x Hs.
  - left. now exists x.
  - destruct x as [|b x].
    + right. exists (String a q). split; [reflexivity|exact Hs].
    + rewrite append_cons in Hs. simpl in Hs. simpl Tagged.strip_prefix at 1.
      destruct (Ascii.eqb_spec a b) as [->|]; [|discriminate].
      destruct (IH x Hs) as [Hl|(q2 & -> & Hq)]; [now left|].
      right. exists q2. now rewrite append_cons.
Qed.

(** When the first character of the needle occurs nowhere else in it, the
    first occurrence in [before +:+ needle +:+ rest] is the one written,
    provided [before] holds none. *)
Lemma split_at_first_app (needle before rest : string) :
  Shape.head_unique needle = true ->
  PyStr.contains needle before = false ->
  Tagged.split_at_first needle (before +:+ needle +:+ rest) = Some (before, rest).
Proof.
  intros Hu. induction before as [|c p IH]; intros Hc; rewrite split_at_first_unfold.
  - rewrite append_nil_l, strip_prefix_app. reflexivity.
  - pose proof Hc as Hc0. apply contains_cons in Hc as [Hp Hr].
    destruct (Tagged.strip_prefix needle (String c p +:+ needle +:+ rest)) as [x|] eqn:Hx.
    + exfalso. apply strip_prefix_app_inv in Hx as [Hl|(q2 & Hq & Hs)].
      * apply strip_prefix_prefix in Hl. congruence.
      * destruct needle as [|a n]; [discriminate|].
        rewrite append_cons in Hq. inversion Hq; subst c n.
        destruct q2 as [|d q2].
        -- rewrite append_nil_r in Hp.
           assert (Hs' : is_Some (Tagged.strip_prefix (String a p) (String a p))).
           { rewrite <- (append_nil_r (String a p)) at 2. rewrite strip_prefix_app. eauto. }
           apply strip_prefix_prefix in Hs'. congruence.
        -- rewrite append_cons in Hs. simpl in Hs.
           destruct (Ascii.eqb_spec d a) as [->|]; [|discriminate].
           simpl in Hu. rewrite chars_app, forallb_app in Hu.
           apply andb_true_iff in Hu as [_ Hu]. simpl in Hu.
           rewrite Ascii.eqb_refl in Hu. discriminate.
    + rewrite append_cons, (IH Hr). reflexivity.
Qed.

(** A search between two tags whose first characters occur nowhere else in
    them finds the text between the first pair. *)
Lemma search_group_app (open close before group rest : string) :
  Shape.head_unique open = true ->
  Shape.head_unique close = true ->
  PyStr.contains open before = false ->
  PyStr.contains close group = false ->
  Tagged.search_group open close (before +:+ open +:+ group +:+ close +:+ rest)
  = Some group.
Proof.
  intros Ho Hc Hb Hg. unfold Tagged.search_group.
  rewrite (split_at_first_app _ _ _ Ho Hb), (split_at_first_app _ _ _ Hc Hg).
  reflexivity.
Qed.

(** A reply that lacks one tag of the thinking pair and one tag of the
    response pair is returned whole as the response, not stripped, with an
    empty thinking text. *)
Theorem untagged_reply_is_the_response (reply : string) :
  PyStr.contains "<thinking>" reply = false \/ PyStr.contains "</thinking>" reply = false ->
  PyStr.contains "<response>" reply = false \/ PyStr.contains "</response>" reply = false ->
  Clients.parse_thinking reply = (EmptyString, reply).
Proof.
  intros Ht Hr. unfold Clients.parse_thinking. cbv zeta.
  now rewrite (search_group_absent _ _ _ Ht), (search_group_absent _ _ _ Hr).
Qed.

Lemma untagged_reply_is_the_response_witness :
  Clients.parse_thinking " <thinking>half a thought, then the answer "
  = (EmptyString, " <thinking>half a thought, then the answer ").
Proof.
  exact (untagged_reply_is_the_response " <thinking>half a thought, then the answer "
           (or_intror eq_refl) (or_introl eq_refl)).
Defined.

(** A reply written as the prompt asks, a thinking pair followed by a
    response pair, is parsed into the two texts between the tags, each
    stripped: whatever stands before, between and after the pairs is
    dropped. The texts must not hold the closing tag of their pair, and no
    opening tag may occur before the one written. *)
Theorem tagged_reply_round_trip (before thinking between response after : string) :
  PyStr.contains "<thinking>" before = false ->
  PyStr.contains "</thinking>" thinking = false ->
  PyStr.contains "<response>"
    (before +:+ "<thinking>" +:+ thinking +:+ "</thinking>" +:+ between) = false ->
  PyStr.contains "</response>" response = false ->
  Clients.parse_thinking
    (before +:+ "<thinking>" +:+ thinking +:+ "</thinking>" +:+ between
     +:+ "<response>" +:+ response +:+ "</response>" +:+ after)
  = (PyStr.strip thinking, PyStr.strip response).
Proof.
  intros Hb Ht Hp Hr. unfold Clients.parse_thinking. cbv zeta.
  rewrite (search_group_app "<thinking>" "</thinking>" before thinking _
             eq_refl eq_refl Hb Ht).
  replace (before +:+ "<thinking>" +:+ thinking +:+ "</thinking>" +:+ between
           +:+ "<response>" +:+ response +:+ "</response>" +:+ after)
    with ((before +:+ "<thinking>" +:+ thinking +:+ "</thinking>" +:+ between)
          +:+ "<response>" +:+ response +:+ "</response>" +:+ after)
    by (now rewrite !append_assoc).
  rewrite (search_group_app "<response>" "</response>" _ response after
             eq_refl eq_refl Hp Hr).
  reflexivity.
Qed.

Lemma tagged_reply_round_trip_witness :
  Clients.parse_thinking
    ("Sure. <thinking> 2 and 2 </thinking> so <response> 4 </response> bye")
  = ("2 and 2", "4").
Proof.
  exact (tagged_reply_round_trip "Sure. " " 2 and 2 " " so " " 4 " " bye"
           eq_refl eq_refl eq_refl eq_refl).
Defined.

(** ** The routes of the API *)

Lemma clear_history_agent `{Outside} (self : Core.Agent) (user_id : string) (e1 e2 : Env) :
  fst (Core.clear_history self user_id e1) = fst (Core.clear_history self user_id e2).
Proof.
  unfold Core.clear_history.
  destruct (Core.conversations self !! user_id); reflexivity.
Qed.

Lemma clear_command_run `{Outside} self message user_id metadata (e : Env) :
  PyStr.lower (PyStr.strip message) = "/clear" ->
  Core.process_message self message user_id metadata e
  = let (self', e') :=
      Core.clear_history self user_id
        (logged e [Reading.processing_record user_id message]) in
    (Core.system_response "Conversation history cleared.", self', e').
Proof.
  intros Hclear. unfold Core.process_message. unfold bind at 1. rewrite logger_run.
  rewrite Hclear. change (String.eqb "/clear" "/clear") with true. cbv iota.
  unfold bind at 1.
  destruct (Core.clear_history self user_id _) as [self' e']. reflexivity.
Qed.


(** A clear command sent to the message route and a request to the clear
    route leave the same agent: for a user that is named, both answer 200,
    both drop that user's conversation and nothing else, and neither calls
    a provider, the clock or a handler. *)
Theorem clear_route_and_clear_command_agree `{Outside} (agent : Core.Agent)
    (message user_id : string) (e : Env) :
  user_id <> EmptyString ->
  PyStr.lower (PyStr.strip message) = "/clear" ->
  let '(_, status_m, agent_m, e_m) :=
    App.handle_message agent
      (Some (<["message" := message]> (<["user_id" := user_id]> ∅))) e in
  let '(body_c, status_c, agent_c, e_c) :=
    App.clear_history agent (Some (<["user_id" := user_id]> ∅)) e in
  status_m = 200 /\ status_c = 200
  /\ body_c = App.ClearedBody ("History cleared for " +:+ user_id)
  /\ agent_m = agent_c
  /\ Core.conversations agent_c = delete user_id (Core.conversations agent)
  /\ world e_m = world e /\ world e_c = world e.
Proof.
  intros Hu Hclear.
  assert (Hmsg : Router.truthy_str (Some message) = true).
  { destruct message; [discriminate|reflexivity]. }
  assert (Hus : Router.truthy_str (Some user_id) = true).
  { destruct user_id; [congruence|reflexivity]. }
  unfold App.handle_message, App.clear_history.
  assert (Hd1 : App.truthy_data
                  (Some (<["message" := message]> (<["user_id" := user_id]> ∅))) = true).
  { simpl. apply negb_true_iff, bool_decide_eq_false. apply insert_non_empty. }
  assert (Hd2 : App.truthy_data (Some (<["user_id" := user_id]> (∅ : gmap string string)))
                = true).
  { simpl. apply negb_true_iff, bool_decide_eq_false. apply insert_non_empty. }
  rewrite Hd1, Hd2. cbn [negb from_option id]. cbv zeta.
  rewrite lookup_insert_eq.
  rewrite (lookup_insert_ne _ "message" "user_id") by discriminate.
  rewrite !lookup_insert_eq. cbn [from_option id].
  rewrite Hmsg, Hus. cbn [negb].
  unfold bind at 1. rewrite logger_run. unfold bind at 1.
  rewrite (clear_command_run _ _ _ _ _ Hclear).
  set (e0 := logged (logged e _) _).
  pose proof (clear_history_run agent user_id e0) as Hm.
  pose proof (clear_history_agent agent user_id e0 e) as Ha.
  destruct (Core.clear_history agent user_id e0) as [agent_m e_m].
  unfold bind at 1.
  pose proof (clear_history_run agent user_id e) as Hc.
  destruct (Core.clear_history agent user_id e) as [agent_c e_c].
  unfold ret. cbn [fst snd] in *.
  destruct Hm as (_ & _ & Hwm). destruct Hc as (_ & Hdel & Hwc).
  repeat split; auto.
Qed.

Lemma clear_route_and_clear_command_agree_witness :
  let '(_, status_m, agent_m, e_m) :=
    @App.handle_message Scripted.all_up Scenario.five_entries
      (Some (<["message" := " /Clear "]> (<["user_id" := "alice"]> ∅)))
      (@Scripted.start Scripted.all_up []) in
  let '(body_c, status_c, agent_c, e_c) :=
    @App.clear_history Scripted.all_up Scenario.five_entries
      (Some (<["user_id" := "alice"]> ∅)) (@Scripted.start Scripted.all_up []) in
  status_m = 200 /\ status_c = 200
  /\ body_c = App.ClearedBody "History cleared for alice"
  /\ agent_m = agent_c
  /\ Core.conversations agent_c = delete "alice" (Core.conversations Scenario.five_entries)
  /\ world e_m = [] /\ world e_c = [].
Proof.
  exact (@clear_route_and_clear_command_agree Scripted.all_up Scenario.five_entries
           " /Clear " "alice" (@Scripted.start Scripted.all_up [])
           ltac:(discriminate) eq_refl).
Defined.
